(** * meshpy/stp_file.py: the StablePoseFile reader and writer

    A shallow embedding of [StablePoseFile] (constructor, [read], [write])
    and the properties of the STP text format that follow from the code.

    Text is [string]; the file system is a finite map from paths to file
    contents; Python exceptions are values of [exn] carried by a sum type;
    the Python float primitives the code calls ([float(s)], ["%f" % x],
    [str(x)], [>=]) form an interface, [PyFloat], which the codec and the
    theorems about it are generic in.  A decimal instance of the interface
    runs the codec on example files. *)

From Stdlib Require Import ZArith Ascii String List Sorted Lia.
From Stdlib Require Import Numbers.DecimalString Numbers.DecimalNat Numbers.DecimalZ.
From stdpp Require Import base option list gmap strings.

Local Open Scope Z_scope.

(** ** Exceptions and the error monad *)

Inductive exn : Type :=
  | ValueError (msg : string)
  | IndexError
  | UnboundLocalError (name : string)
  | IOError (path : string).

Definition Exc (A : Type) : Type := exn + A.

Definition Raise {A : Type} (e : exn) : Exc A := inl e.
Definition Return {A : Type} (a : A) : Exc A := inr a.

Definition bind {A B : Type} (m : Exc A) (k : A -> Exc B) : Exc B :=
  match m with
  | inl e => inl e
  | inr a => k a
  end.

Notation "x <- m ;; k" := (bind m (fun x => k))
  (at level 100, m at next level, right associativity).

(** ** Python string primitives *)

Definition newline : ascii := "010"%char.

(** The string of one newline. *)
Definition nl : string := String newline EmptyString.

(** [s[:n]] and [s[n:]] for [0 <= n]. *)
Fixpoint str_take (n : nat) (s : string) : string :=
  match n, s with
  | S n', String c s' => String c (str_take n' s')
  | _, _ => EmptyString
  end.

Fixpoint str_drop (n : nat) (s : string) : string :=
  match n, s with
  | S n', String c s' => str_drop n' s'
  | _, _ => s
  end.

(** [s[:-k]]: the stop index is [len(s) - k], clamped at 0. *)
Definition slice_to_neg (k : nat) (s : string) : string :=
  str_take (Z.to_nat (Z.of_nat (String.length s) - Z.of_nat k)) s.

(** [s[i:i+1]]: the one-character string at [i], empty out of range. *)
Definition char_slice (i : Z) (s : string) : string :=
  if i <? 0 then EmptyString
  else str_take 1 (str_drop (Z.to_nat i) s).

(** [s.rfind(c)]: index of the last occurrence of [c], or [-1]. *)
Fixpoint rfind_from (c : ascii) (s : string) (i last : Z) : Z :=
  match s with
  | EmptyString => last
  | String a s' => rfind_from c s' (i + 1) (if Ascii.eqb a c then i else last)
  end.

Definition rfind (c : ascii) (s : string) : Z := rfind_from c s 0 (-1).

(** ** os.path.splitext (posixpath: sep = "/", altsep = None, extsep = ".")

    The [while] loop of [genericpath._splitext] walks [filenameIndex] from
    [sepIndex + 1] up to [dotIndex]; [n] counts the iterations left. *)
Fixpoint splitext_loop (p : string) (dotIndex filenameIndex : Z) (n : nat)
  : string * string :=
  match n with
  | O => (p, EmptyString)
  | S n' =>
      if negb (String.eqb (char_slice filenameIndex p) ".")
      then (str_take (Z.to_nat dotIndex) p, str_drop (Z.to_nat dotIndex) p)
      else splitext_loop p dotIndex (filenameIndex + 1) n'
  end.

Definition splitext (p : string) : string * string :=
  let sepIndex := rfind "/" p in
  let dotIndex := rfind "." p in
  if sepIndex <? dotIndex
  then splitext_loop p dotIndex (sepIndex + 1)
         (Z.to_nat (dotIndex - (sepIndex + 1)))
  else (p, EmptyString).

(** ** The file system and the codec object *)

Abbreviation FS := (gmap string string).

(** A computation that may touch the file system. *)
Definition IO (A : Type) : Type := FS -> Exc A * FS.

Record StablePoseFile : Type := { filepath_ : string }.

(** [StablePoseFile.__init__] *)
Definition init (filepath : string) : IO StablePoseFile :=
  fun fs =>
    let self := {| filepath_ := filepath |} in
    let '(file_root, file_ext) := splitext (filepath_ self) in
    if negb (String.eqb file_ext ".stp")
    then (Raise (ValueError ("Extension " +:+ file_ext +:+ " invalid for STPs")), fs)
    else (Return self, fs).

(** The property [filepath]. *)
Definition filepath (self : StablePoseFile) : string := filepath_ self.

(** The path [write] opens: [self.filepath_[:-4] + ".stp"]. *)
Definition write_path (self : StablePoseFile) : string :=
  slice_to_neg 4 (filepath_ self) +:+ ".stp".

(** ** Python values used by the codec *)

(** The float primitives of the Python runtime that the code calls. *)
Class PyFloat (F : Type) : Type := {
  float_of_string : string -> option F;  (* float(s); None is ValueError *)
  format_f : F -> string;                (* "%f" % x *)
  float_str : F -> string;               (* str(x) *)
  float_ge : F -> F -> bool;             (* x >= y *)
  float_ge_int : F -> Z -> bool          (* x >= n, n an int *)
}.

(** [min_prob] is an int (the default [0]) or a float. *)
Inductive number (F : Type) : Type :=
  | Int (n : Z)
  | Float (x : F).
Arguments Int {F} n.
Arguments Float {F} x.

(** An identifier is a string or an integer. *)
Inductive ident : Type :=
  | IdStr (s : string)
  | IdInt (n : Z).

Definition str_of_nat (n : nat) : string := NilEmpty.string_of_uint (Nat.to_uint n).
Definition str_of_Z (n : Z) : string := NilEmpty.string_of_int (Z.to_int n).

(** ["%s" % v] *)
Definition format_s (v : ident) : string :=
  match v with
  | IdStr s => s
  | IdInt n => str_of_Z n
  end.

Definition vec3 (F : Type) : Type := (F * F * F)%type.
Definition mat3 (F : Type) : Type := (vec3 F * vec3 F * vec3 F)%type.

Module sp.
(** Modelled from the spec: the class [StablePose] of the module
    [stable_pose], which is not part of the sources.  The spec's data model
    gives it a probability, a 3x3 rotation, a 3-vector translation and an
    identifier, stored as given. *)
Record StablePose (F : Type) : Type := mk {
  p : F;
  r : mat3 F;
  x0 : vec3 F;
  id : ident
}.
Arguments mk {F} p r x0 id.
Arguments p {F} _.
Arguments r {F} _.
Arguments x0 {F} _.
Arguments id {F} _.
End sp.

(** ** Reading lines and splitting them *)

(** Python 2 [str.isspace] on one character (the separators of [split()]):
    tab, newline, vertical tab, form feed, carriage return (codes 9 to 13)
    and space (code 32). *)
Definition isspace (c : ascii) : bool :=
  let code := N_of_ascii c in
  ((9 <=? code) && (code <=? 13) || (code =? 32))%N.

(** [line.split()]: maximal runs of non-whitespace characters.  [cur] is the
    run read so far. *)
Fixpoint split_go (cur : string) (s : string) : list string :=
  match s with
  | EmptyString => if String.eqb cur EmptyString then [] else [cur]
  | String c s' =>
      if isspace c
      then (if String.eqb cur EmptyString then split_go EmptyString s' else cur :: split_go EmptyString s')
      else split_go (cur +:+ String c EmptyString) s'
  end.

Definition split (s : string) : list string := split_go EmptyString s.

(** [for line in f]: each line keeps its newline; a last line without one is
    still a line. *)
Fixpoint readlines_go (cur : string) (s : string) : list string :=
  match s with
  | EmptyString => if String.eqb cur EmptyString then [] else [cur]
  | String c s' =>
      if Ascii.eqb c newline
      then (cur +:+ String c EmptyString) :: readlines_go EmptyString s'
      else readlines_go (cur +:+ String c EmptyString) s'
  end.

Definition readlines (s : string) : list string := readlines_go EmptyString s.

(** [l[i]] *)
Definition getitem {A : Type} (l : list A) (i : nat) : Exc A :=
  match l !! i with
  | Some x => Return x
  | None => Raise IndexError
  end.

(** [data[i][j]] *)
Definition getitem2 {A : Type} (data : list (list A)) (i j : nat) : Exc A :=
  row <- getitem data i;; getitem row j.

(** [for i in range(...)] over a state, stopping at the first exception. *)
Fixpoint for_range {S : Type} (body : nat -> S -> Exc S) (range : list nat) (st : S)
  : Exc S :=
  match range with
  | [] => Return st
  | i :: range' => st' <- body i st;; for_range body range' st'
  end.

(** ** The codec: [read] and [write] *)

Section Codec.
Context {F : Type} `{PyFloat F}.

Abbreviation StablePose := (sp.StablePose F).

(** [float(t)], and the element conversion of [astype(np.float64)]. *)
Definition to_float (t : string) : Exc F :=
  match float_of_string t with
  | Some x => Return x
  | None => Raise (ValueError ("could not convert string to float: " +:+ t))
  end.

(** [np.array([a, b, c]).astype(np.float64)] *)
Definition astype_vec (v : string * string * string) : Exc (vec3 F) :=
  let '(a, b, c) := v in
  x <- to_float a;; y <- to_float b;; z <- to_float c;; Return (x, y, z).

(** [np.array([[..], [..], [..]]).astype(np.float64)] *)
Definition astype_mat (m : (string * string * string) * (string * string * string)
                           * (string * string * string)) : Exc (mat3 F) :=
  let '(u, v, w) := m in
  a <- astype_vec u;; b <- astype_vec v;; c <- astype_vec w;; Return (a, b, c).

(** The local variables of [read] that live across iterations.  [None] is
    an unbound name. *)
Record read_locals : Type := {
  stable_poses : list StablePose;
  identifier : option string;
  stp_id : option Z
}.

(** [len(data[i]) > 0 and data[i][0] == "p"] *)
Definition is_p_line (row : list string) : bool :=
  match row with
  | [] => false
  | t :: _ => String.eqb t "p"
  end.

(** The [try ... except] around the identifier: a failing lookup stores
    [0] in [stp_id] and leaves [identifier] as it was. *)
Definition read_identifier (data : list (list string)) (i : nat) (st : read_locals)
  : read_locals :=
  match getitem2 data (i + 5) 1 with
  | inr t => {| stable_poses := stable_poses st; identifier := Some t;
                stp_id := stp_id st |}
  | inl _ => {| stable_poses := stable_poses st; identifier := identifier st;
                stp_id := Some 0 |}
  end.

(** The body of the loop of [read] at index [i]. *)
Definition read_body (data : list (list string)) (i : nat) (st : read_locals)
  : Exc read_locals :=
  row <- getitem data i;;
  if is_p_line row then
    tp <- getitem2 data i 1;;
    p <- to_float tp;;
    r00 <- getitem2 data (i + 1) 1;;
    r01 <- getitem2 data (i + 1) 2;;
    r02 <- getitem2 data (i + 1) 3;;
    r10 <- getitem2 data (i + 2) 0;;
    r11 <- getitem2 data (i + 2) 1;;
    r12 <- getitem2 data (i + 2) 2;;
    r20 <- getitem2 data (i + 3) 0;;
    r21 <- getitem2 data (i + 3) 1;;
    r22 <- getitem2 data (i + 3) 2;;
    r <- astype_mat ((r00, r01, r02), (r10, r11, r12), (r20, r21, r22));;
    t0 <- getitem2 data (i + 4) 1;;
    t1 <- getitem2 data (i + 4) 2;;
    t2 <- getitem2 data (i + 4) 3;;
    x0 <- astype_vec (t0, t1, t2);;
    let st := read_identifier data i st in
    match identifier st with
    | None => Raise (UnboundLocalError "identifier")
    | Some ident =>
        Return {| stable_poses := stable_poses st ++ [sp.mk p r x0 (IdStr ident)];
                  identifier := identifier st;
                  stp_id := stp_id st |}
    end
  else Return st.

(** [read] once the file is open: [data] is the list of split lines. *)
Definition read_data (data : list (list string)) : Exc (list StablePose) :=
  st <- for_range (read_body data) (seq 0 (length data))
          {| stable_poses := []; identifier := None; stp_id := None |};;
  Return (stable_poses st).

Definition read_text (text : string) : Exc (list StablePose) :=
  read_data (map split (readlines text)).

(** [StablePoseFile.read] *)
Definition read (self : StablePoseFile) : IO (list StablePose) :=
  fun fs =>
    match fs !! filepath_ self with
    | None => (Raise (IOError (filepath_ self)), fs)
    | Some text => (read_text text, fs)
    end.

(** [pose.p >= min_prob] *)
Definition ge_min_prob (x : F) (min_prob : number F) : bool :=
  match min_prob with
  | Int n => float_ge_int x n
  | Float y => float_ge x y
  end.

(** [str(min_prob)] *)
Definition str_number (min_prob : number F) : string :=
  match min_prob with
  | Int n => str_of_Z n
  | Float y => float_str y
  end.

(** [f.write(s)] on the text written so far. *)
Definition fwrite (s : string) (f : string) : string := f +:+ s.

(** [for _ in range(n): f.write(" ")]; a negative [n] is an empty range. *)
Definition write_spaces (n : Z) (f : string) : string :=
  Nat.iter (Z.to_nat n) (fwrite " ") f.

(** ["%f %f %f" % (a, b, c)] *)
Definition format_3f (v : vec3 F) : string :=
  let '(a, b, c) := v in
  format_f a +:+ " " +:+ format_f b +:+ " " +:+ format_f c.

(** An element [[p, r, x0, id]] of [R_list]. *)
Definition R_entry : Type := (F * mat3 F * vec3 F * ident)%type.

(** The first loop of [write]: the poses that pass the filter. *)
Definition build_R_list (stable_poses : list StablePose) (min_prob : number F)
  : list R_entry :=
  fold_left
    (fun R_list pose =>
       if ge_min_prob (sp.p pose) min_prob
       then R_list ++ [(sp.p pose, sp.r pose, sp.x0 pose, sp.id pose)]
       else R_list)
    stable_poses [].

(** The body of the second loop of [write] at index [i]. *)
Definition write_body (R_list : list R_entry) (i : nat) (f : string) : Exc string :=
  e <- getitem R_list i;;
  let '(p, (r0, r1, r2), x0, id) := e in
  let f := fwrite ("p " +:+ format_f p +:+ nl) f in
  let f := fwrite ("r " +:+ format_3f r0 +:+ nl) f in
  let f := fwrite ("  " +:+ format_3f r1 +:+ nl) f in
  let f := fwrite ("  " +:+ format_3f r2 +:+ nl) f in
  let f := fwrite ("x0 " +:+ format_3f x0 +:+ nl) f in
  let f := fwrite ("id " +:+ format_s id +:+ nl) f in
  Return f.

(** The text [write] puts in the file. *)
Definition write_text (stable_poses : list StablePose) (min_prob : number F)
  : Exc string :=
  let R_list := build_R_list stable_poses min_prob in
  let f := EmptyString in
  let f := fwrite ("#############################################################" +:+ nl) f in
  let f := fwrite ("# STP file generated by UC Berkeley Automation Sciences Lab #" +:+ nl) f in
  let f := fwrite ("#                                                           #" +:+ nl) f in
  let f := fwrite ("# Num Poses: " +:+ str_of_nat (length R_list)) f in
  let f := write_spaces (46 - Z.of_nat (String.length (str_of_nat (length R_list)))) f in
  let f := fwrite (" #" +:+ nl) f in
  let f := fwrite ("# Min Probability: " +:+ str_number min_prob) f in
  let f := write_spaces (40 - Z.of_nat (String.length (str_number min_prob))) f in
  let f := fwrite (" #" +:+ nl) f in
  let f := fwrite ("#                                                           #" +:+ nl) f in
  let f := fwrite ("#############################################################" +:+ nl) f in
  let f := fwrite nl f in
  f <- for_range (write_body R_list) (seq 0 (length R_list)) f;;
  let f := fwrite (nl +:+ nl) f in
  Return f.

(** [StablePoseFile.write]: the text replaces the contents of the file at
    [write_path].  The file system is a flat map without directories and
    permissions, in which every path can be opened for writing: the [IOError]
    that [open(..., "w")] raises for a missing directory or a path that cannot
    be written is outside this model, and no statement below is about it.
    [write_text] does not raise ([write_text_layout] below): the [inl] branch
    only follows the type of the loop. *)
Definition write (self : StablePoseFile) (stable_poses : list StablePose)
  (min_prob : number F) : IO unit :=
  fun fs =>
    match write_text stable_poses min_prob with
    | inl e => (Raise e, <[write_path self := EmptyString]> fs)
    | inr text => (Return tt, <[write_path self := text]> fs)
    end.

End Codec.

(** ** Auxiliary definitions for the statements and proofs *)

Local Open Scope nat_scope.

(** Every character of [s] passes [P]. *)
Fixpoint str_forall (P : ascii -> bool) (s : string) : bool :=
  match s with
  | EmptyString => true
  | String c s' => P c && str_forall P s'
  end.

(** No newline inside. *)
Definition line_ok (s : string) : bool :=
  str_forall (λ c, negb (Ascii.eqb c newline)) s.

(** No whitespace inside. *)
Definition no_space (s : string) : bool := str_forall (λ c, negb (isspace c)) s.

(** What [split()] returns as one token: not empty, no whitespace. *)
Definition is_token (s : string) : bool := negb (String.eqb s EmptyString) && no_space s.

(** [n] spaces. *)
Fixpoint spaces (n : nat) : string :=
  match n with
  | O => EmptyString
  | S n' => String " " (spaces n')
  end.

(** The strings of [l] one after the other. *)
Definition str_concat (l : list string) : string := foldr String.append EmptyString l.

(** The two exceptions that a broken block raises. *)
Definition MalformedRecord (e : exn) : Prop :=
  e = IndexError \/ exists msg, e = ValueError msg.

(** [m] ends in an exception. *)
Definition raises {A : Type} (m : Exc A) : Prop :=
  match m with
  | inl _ => True
  | inr _ => False
  end.

(** Indices of the rows whose first token is ["p"], in file order; [i] is the
    index of the first row of [rows]. *)
Fixpoint p_lines_from (i : nat) (rows : list (list string)) : list nat :=
  match rows with
  | [] => []
  | row :: rest =>
      if is_p_line row then i :: p_lines_from (S i) rest
      else p_lines_from (S i) rest
  end.

Definition p_lines (data : list (list string)) : list nat := p_lines_from 0 data.

(** Token [j] of row [i]. *)
Definition token_at (data : list (list string)) (i j : nat) : option string :=
  data !! i ≫= (λ row, row !! j).

(** The state after the identifier lookup of iteration [i]. *)
Definition identifier_after (data : list (list string)) (i : nat) (prev : option string)
  : option string :=
  match token_at data (i + 5) 1 with
  | Some t => Some t
  | None => prev
  end.

(** The three constant lines of the banner. *)
Definition border_line : string :=
  "#############################################################" +:+ nl.

Definition attribution_line : string :=
  "# STP file generated by UC Berkeley Automation Sciences Lab #" +:+ nl.

Definition blank_comment_line : string :=
  "#                                                           #" +:+ nl.

(** The count, then 46 minus its length spaces, then [" #"]. *)
Definition num_poses_line (n : nat) : string :=
  "# Num Poses: " +:+ str_of_nat n
    +:+ spaces (46 - String.length (str_of_nat n)) +:+ " #" +:+ nl.

(** The threshold as a string, then 40 minus its length spaces, then [" #"]. *)
Definition min_prob_line (P : string) : string :=
  "# Min Probability: " +:+ P +:+ spaces (40 - String.length P) +:+ " #" +:+ nl.

(** The banner and the blank line after it. *)
Definition banner (n : nat) (P : string) : string :=
  border_line +:+ attribution_line +:+ blank_comment_line
    +:+ num_poses_line n +:+ min_prob_line P
    +:+ blank_comment_line +:+ border_line +:+ nl.

(** Some character of [root] after its last slash is not a dot: the file
    name that [root] ends with is more than dots. *)
Definition has_stem (root : string) : Prop :=
  exists j : Z,
    (rfind "/" root < j < Z.of_nat (String.length root))%Z /\
    char_slice j root <> ".".

(** The thirteen number tokens of a block, as (line offset, token index):
    the probability, the three rows of the rotation, the translation. *)
Definition required_tokens : list (nat * nat) :=
  [ (0, 1);
    (1, 1); (1, 2); (1, 3);
    (2, 0); (2, 1); (2, 2);
    (3, 0); (3, 1); (3, 2);
    (4, 1); (4, 2); (4, 3) ].

(** A text from its lines, each ended by a newline. *)
Definition unlines (ls : list string) : string :=
  str_concat (map (λ l, l +:+ nl) ls).

Section Auxiliary.
Context {F : Type} `{PyFloat F}.

(** The number at token [j] of row [i]; [None] when the token is absent or
    no number. *)
Definition float_at (data : list (list string)) (i j : nat) : option F :=
  token_at data i j ≫= float_of_string.

(** The three numbers at tokens [j], [j+1], [j+2] of row [i]. *)
Definition vec_at (data : list (list string)) (i j : nat) : option (vec3 F) :=
  a ← float_at data i j; b ← float_at data i (j + 1); c ← float_at data i (j + 2);
  Some (a, b, c).

(** Three tokens converted in order; [None] as soon as one is no number. *)
Definition floats3 (a b c : string) : option (vec3 F) :=
  x ← float_of_string a; y ← float_of_string b; z ← float_of_string c;
  Some (x, y, z).

(** The fields of the block that starts at row [i], by position. *)
Definition block_fields (data : list (list string)) (i : nat)
  : option (F * mat3 F * vec3 F) :=
  p ← float_at data i 1;
  r0 ← vec_at data (i + 1) 1;
  r1 ← vec_at data (i + 2) 0;
  r2 ← vec_at data (i + 3) 0;
  x0 ← vec_at data (i + 4) 1;
  Some (p, (r0, r1, r2), x0).

(** The loop of [read] as a recursion on the rows from the current one on. *)
Fixpoint read_suffix (rows : list (list string)) (st : read_locals (F:=F))
  : Exc read_locals :=
  match rows with
  | [] => Return st
  | _ :: rest => st' <- read_body rows 0 st;; read_suffix rest st'
  end.

(** [rec] carries the numbers of the block that starts at row [i]. *)
Definition record_at (data : list (list string)) (i : nat) (rec : sp.StablePose F)
  : Prop :=
  block_fields data i = Some (sp.p rec, sp.r rec, sp.x0 rec).

(** The six lines of one record. *)
Definition record_text (pose : sp.StablePose F) : string :=
  let '(r0, r1, r2) := sp.r pose in
  "p " +:+ format_f (sp.p pose) +:+ nl
    +:+ "r " +:+ format_3f r0 +:+ nl
    +:+ "  " +:+ format_3f r1 +:+ nl
    +:+ "  " +:+ format_3f r2 +:+ nl
    +:+ "x0 " +:+ format_3f (sp.x0 pose) +:+ nl
    +:+ "id " +:+ format_s (sp.id pose) +:+ nl.

(** Banner, records, two blank lines. *)
Definition stp_layout (kept : list (sp.StablePose F)) (P : string) : string :=
  banner (length kept) P +:+ str_concat (map record_text kept) +:+ nl +:+ nl.

(** The poses that [write] keeps. *)
Definition retained (stable_poses : list (sp.StablePose F)) (min_prob : number F)
  : list (sp.StablePose F) :=
  List.filter (λ pose, ge_min_prob (sp.p pose) min_prob) stable_poses.

(** The entry [[pose.p, pose.r, pose.x0, pose.id]] of [R_list]. *)
Definition entry_of (pose : sp.StablePose F) : R_entry (F:=F) :=
  (sp.p pose, sp.r pose, sp.x0 pose, sp.id pose).

(** The token lists of the six lines of one record. *)
Definition record_rows (pose : sp.StablePose F) : list (list string) :=
  let '((a, b, c), (d, e, f), (g, h, i)) := sp.r pose in
  let '(u, v, w) := sp.x0 pose in
  [ ["p"; format_f (sp.p pose)];
    ["r"; format_f a; format_f b; format_f c];
    [format_f d; format_f e; format_f f];
    [format_f g; format_f h; format_f i];
    ["x0"; format_f u; format_f v; format_f w];
    ["id"; format_s (sp.id pose)] ].

(** The float read back from the text of [x]. *)
Definition reparse (x : F) : F := default x (float_of_string (format_f x)).

Definition reparse_vec (v : vec3 F) : vec3 F :=
  let '(a, b, c) := v in (reparse a, reparse b, reparse c).

(** The record read back from the six lines of [pose]. *)
Definition reparse_pose (pose : sp.StablePose F) : sp.StablePose F :=
  let '(r0, r1, r2) := sp.r pose in
  sp.mk (reparse (sp.p pose))
        (reparse_vec r0, reparse_vec r1, reparse_vec r2)
        (reparse_vec (sp.x0 pose))
        (IdStr (format_s (sp.id pose))).

(** A record that [write] with threshold 0 keeps and [read] returns as it
    was: the probability is not below 0 and the identifier is a string that is
    one token.  This is narrower than the records of the spec, whose
    identifier is a string or an integer: an integer, a string of several
    words and a blank string are not read back as they were written. *)
Definition valid_pose (pose : sp.StablePose F) : Prop :=
  float_ge_int (sp.p pose) 0 = true /\
  exists s, sp.id pose = IdStr s /\ is_token s = true.

(** Equality at the precision of ["%f"]. *)
Definition eq6 (x y : F) : Prop := format_f x = format_f y.

Definition vec_eq6 (u v : vec3 F) : Prop :=
  eq6 u.1.1 v.1.1 /\ eq6 u.1.2 v.1.2 /\ eq6 u.2 v.2.

Definition pose_eq6 (a b : sp.StablePose F) : Prop :=
  eq6 (sp.p a) (sp.p b) /\
  vec_eq6 (sp.r a).1.1 (sp.r b).1.1 /\
  vec_eq6 (sp.r a).1.2 (sp.r b).1.2 /\
  vec_eq6 (sp.r a).2 (sp.r b).2 /\
  vec_eq6 (sp.x0 a) (sp.x0 b) /\
  sp.id a = sp.id b.

End Auxiliary.

(** What the codec needs from ["%f"] and [float]: the formatted text is one
    token, it converts back to a float that formats to the same text, and the
    record marker is no number. *)
Class PyFloatLaws (F : Type) `{PyFloat F} : Prop := {
  format_f_is_token : forall x : F, is_token (format_f x) = true;
  format_f_reparse : forall x : F,
    exists y, float_of_string (format_f x) = Some y /\ format_f y = format_f x;
  float_of_p : float_of_string (F:=F) "p" = None
}.

(** ** A decimal model of the float interface

    Numbers with six decimal places, held as an integer count of millionths:
    an instance of the interface on which the codec can be run.  It reads
    plain decimal notation only (no exponent, no [inf], no [nan]) and, unlike
    an IEEE double, prints every number it holds exactly. *)

Local Open Scope Z_scope.

(** A number, as its count of millionths. *)
Record dec6 : Type := Dec6 { micro : Z }.

(** The character of the decimal digit [d]. *)
Definition digit_char (d : Z) : ascii :=
  if d =? 0 then "0" else if d =? 1 then "1" else if d =? 2 then "2"
  else if d =? 3 then "3" else if d =? 4 then "4" else if d =? 5 then "5"
  else if d =? 6 then "6" else if d =? 7 then "7" else if d =? 8 then "8"
  else "9".

(** The value of a decimal digit, from its character code. *)
Definition digit_val (c : ascii) : option Z :=
  let code := Z.of_N (N_of_ascii c) in
  if (48 <=? code) && (code <=? 57) then Some (code - 48) else None.

(** Decimal digits of [n >= 0] in front of [acc]; [fuel] bounds the number
    of digits. *)
Fixpoint digits_go (fuel : nat) (n : Z) (acc : string) : string :=
  match fuel with
  | O => acc
  | S fuel' =>
      let acc' := String (digit_char (n mod 10)) acc in
      if n <? 10 then acc' else digits_go fuel' (n / 10) acc'
  end.

(** [n >= 0] in decimal, without leading zeros. *)
Definition digits (n : Z) : string := digits_go (S (Z.to_nat (Z.log2 n))) n EmptyString.

(** The last [k] decimal digits of [n], zero padded, in front of [acc]. *)
Fixpoint pad_digits (k : nat) (n : Z) (acc : string) : string :=
  match k with
  | O => acc
  | S k' => pad_digits k' (n / 10) (String (digit_char (n mod 10)) acc)
  end.

(** ["%f" % x]: sign, integer part, point, six digits. *)
Definition dec6_format (x : dec6) : string :=
  let a := Z.abs (micro x) in
  (if micro x <? 0 then "-" else EmptyString)
    +:+ digits (a / 1000000) +:+ "." +:+ pad_digits 6 (a mod 1000000) EmptyString.

(** The number that the digits of [s] write after those already read into
    [acc]; [None] when a character is no digit. *)
Fixpoint parse_digits (s : string) (acc : Z) : option Z :=
  match s with
  | EmptyString => Some acc
  | String c s' =>
      match digit_val c with
      | Some d => parse_digits s' (acc * 10 + d)
      | None => None
      end
  end.

(** The text before the first point, and the text after it if there is one. *)
Fixpoint split_dot (s : string) : string * option string :=
  match s with
  | EmptyString => (EmptyString, None)
  | String c s' =>
      if Ascii.eqb c "." then (EmptyString, Some s')
      else let '(a, b) := split_dot s' in (String c a, b)
  end.

(** [f] read as [k] fractional digits, in millionths, rounded half to even. *)
Definition scale_fraction (f : Z) (k : nat) : Z :=
  if (k <=? 6)%nat then f * 10 ^ Z.of_nat (6 - k)
  else
    let m := 10 ^ Z.of_nat (k - 6) in
    let q := f / m in
    let r := f mod m in
    if (m <? 2 * r) || ((m =? 2 * r) && Z.odd q) then q + 1 else q.

(** Digits, an optional point and digits, with at least one digit, as
    millionths. *)
Definition parse_unsigned (s : string) : option Z :=
  let '(ip, fp) := split_dot s in
  let fp := default EmptyString fp in
  if (String.length ip + String.length fp =? 0)%nat then None
  else
    match parse_digits ip 0, parse_digits fp 0 with
    | Some a, Some f => Some (a * 1000000 + scale_fraction f (String.length fp))
    | _, _ => None
    end.

(** [float(s)] on plain decimal notation. *)
Definition dec6_of_string (s : string) : option dec6 :=
  match s with
  | EmptyString => None
  | String c s' =>
      if Ascii.eqb c "-" then (λ m, Dec6 (- m)) <$> parse_unsigned s'
      else if Ascii.eqb c "+" then Dec6 <$> parse_unsigned s'
      else Dec6 <$> parse_unsigned s
  end.

(** [c] is a decimal digit. *)
Definition is_digit (c : ascii) : bool :=
  match digit_val c with
  | Some _ => true
  | None => false
  end.

(** [s] without its leading zeros. *)
Fixpoint strip_zeros_rev (s : string) : string :=
  match s with
  | String "0" s' => strip_zeros_rev s'
  | _ => s
  end.

(** [str(x)]: the fraction without trailing zeros, at least one digit. *)
Definition dec6_str (x : dec6) : string :=
  let a := Z.abs (micro x) in
  let frac := String.rev (strip_zeros_rev (String.rev (pad_digits 6 (a mod 1000000) EmptyString))) in
  (if micro x <? 0 then "-" else EmptyString)
    +:+ digits (a / 1000000) +:+ "."
    +:+ (if String.eqb frac EmptyString then "0" else frac).

#[export] Instance dec6_float : PyFloat dec6 := {
  float_of_string := dec6_of_string;
  format_f := dec6_format;
  float_str := dec6_str;
  float_ge x y := micro x >=? micro y;
  float_ge_int x n := micro x >=? n * 1000000
}.

(** ** Example files and records in the decimal model *)

Definition identity_rotation : mat3 dec6 :=
  ((Dec6 1000000, Dec6 0, Dec6 0),
   (Dec6 0, Dec6 1000000, Dec6 0),
   (Dec6 0, Dec6 0, Dec6 1000000)).

Definition origin : vec3 dec6 := (Dec6 0, Dec6 0, Dec6 0).

(** A pose with probability [m] millionths. *)
Definition example_pose (m : Z) (id : string) : sp.StablePose dec6 :=
  sp.mk (Dec6 m) identity_rotation origin (IdStr id).

(** Two records; the second has no identifier line: the file ends after its
    translation. *)
Definition second_record_without_id : string :=
  unlines [ "p 0.5"; "r 1 0 0"; "0 1 0"; "0 0 1"; "x0 0 0 0"; "id 7";
            "p 0.25"; "r 1 0 0"; "0 1 0"; "0 0 1"; "x0 0 0 0" ].

(** One record without identifier line. *)
Definition only_record_without_id : string :=
  unlines [ "p 0.5"; "r 1 0 0"; "0 1 0"; "0 0 1"; "x0 0 0 0" ].

(** A record marker followed by one line only. *)
Definition truncated_record : string :=
  unlines [ "p 0.5"; "r 1 0 0" ].

(** One complete record. *)
Definition one_record : string :=
  unlines [ "p 0.5"; "r 1 0 0"; "0 1 0"; "0 0 1"; "x0 0 0 0"; "id 7" ].

(** ** Definitions for the further properties *)

(** The value of [identifier] after each of the iterations at the rows
    [idxs], from its value [prev] before them: token 1 of row [i + 5] when
    there is one, the value before otherwise. *)
Fixpoint identifier_chain (data : list (list string)) (prev : option string)
    (idxs : list nat) : list (option string) :=
  match idxs with
  | [] => []
  | i :: rest =>
      identifier_after data i prev
      :: identifier_chain data (identifier_after data i prev) rest
  end.

(** The first whitespace-separated word of [s], if it has one. *)
Definition first_word (s : string) : option string := head (split s).

Section FurtherDefinitions.
Context {F : Type} `{PyFloat F}.

(** Every block has its thirteen numbers, and the first block has an
    identifier token. *)
Definition readable (data : list (list string)) : Prop :=
  Forall (λ i, is_Some (block_fields (F:=F) data i)) (p_lines data) /\
  match p_lines data with
  | [] => True
  | i :: _ => is_Some (token_at data (i + 5) 1)
  end.

(** [b] is what [read] makes of the six lines that [write] makes of [a]:
    the floats agree at the precision of ["%f"], and the identifier is the
    string that ["%s"] printed. *)
Definition read_back (a b : sp.StablePose F) : Prop :=
  eq6 (sp.p a) (sp.p b) /\
  vec_eq6 (sp.r a).1.1 (sp.r b).1.1 /\
  vec_eq6 (sp.r a).1.2 (sp.r b).1.2 /\
  vec_eq6 (sp.r a).2 (sp.r b).2 /\
  vec_eq6 (sp.x0 a) (sp.x0 b) /\
  sp.id b = IdStr (format_s (sp.id a)).

(** The record that [read] makes of the six lines of [pose] when the text
    of its identifier starts with the word [t]. *)
Definition read_back_as (t : string) (pose : sp.StablePose F) : sp.StablePose F :=
  let '(r0, r1, r2) := sp.r pose in
  sp.mk (reparse (sp.p pose))
        (reparse_vec r0, reparse_vec r1, reparse_vec r2)
        (reparse_vec (sp.x0 pose))
        (IdStr t).

(** [read_back] but for the identifier, which is the first word of the
    string that ["%s"] printed. *)
Definition read_back_first_word (a b : sp.StablePose F) : Prop :=
  eq6 (sp.p a) (sp.p b) /\
  vec_eq6 (sp.r a).1.1 (sp.r b).1.1 /\
  vec_eq6 (sp.r a).1.2 (sp.r b).1.2 /\
  vec_eq6 (sp.r a).2 (sp.r b).2 /\
  vec_eq6 (sp.x0 a) (sp.x0 b) /\
  exists t, first_word (format_s (sp.id a)) = Some t /\ sp.id b = IdStr t.

End FurtherDefinitions.

(** A file whose first record has a non-numeric probability. *)
Definition bad_probability : string :=
  unlines [ "p half"; "r 1 0 0"; "0 1 0"; "0 0 1"; "x0 0 0 0"; "id 7" ].

(** A pose of the decimal model with an integer identifier. *)
Definition numbered_pose (m : Z) (n : Z) : sp.StablePose dec6 :=
  sp.mk (Dec6 m) identity_rotation origin (IdInt n).

(** ** Definitions for the statements on the written text *)

Section WrittenText.
Context {F : Type} `{PyFloat F}.

(** The six lines of a record with every number written out: [p %f],
    [r %f %f %f], two triplets after two spaces, [x0 %f %f %f], [id %s]. *)
Definition six_lines (pose : sp.StablePose F) : string :=
  match sp.r pose, sp.x0 pose with
  | ((r00, r01, r02), (r10, r11, r12), (r20, r21, r22)), (t0, t1, t2) =>
      ("p " +:+ format_f (sp.p pose) +:+ nl)
      +:+ ("r " +:+ format_f r00 +:+ " " +:+ format_f r01 +:+ " " +:+ format_f r02 +:+ nl)
      +:+ ("  " +:+ format_f r10 +:+ " " +:+ format_f r11 +:+ " " +:+ format_f r12 +:+ nl)
      +:+ ("  " +:+ format_f r20 +:+ " " +:+ format_f r21 +:+ " " +:+ format_f r22 +:+ nl)
      +:+ ("x0 " +:+ format_f t0 +:+ " " +:+ format_f t1 +:+ " " +:+ format_f t2 +:+ nl)
      +:+ ("id " +:+ format_s (sp.id pose) +:+ nl)
  end.

End WrittenText.

(** [s] is a number in fixed notation with six decimals: an optional minus
    sign, at least one digit, a point, and six digits. *)
Definition fixed6 (s : string) : bool :=
  let body :=
    match s with
    | String c s' => if Ascii.eqb c "-" then s' else s
    | EmptyString => s
    end in
  match split_dot body with
  | (whole, Some frac) =>
      negb (String.eqb whole EmptyString) && str_forall is_digit whole
      && str_forall is_digit frac && (String.length frac =? 6)%nat
  | (_, None) => false
  end.

(** ** The decimal model with the floats that are no finite number

    A Python float is also [inf], [-inf] or [nan].  ["%f"] and [str] print
    these as the words ["inf"], ["-inf"] and ["nan"]; [float] reads the words
    [inf], [infinity] and [nan] in any case, after an optional sign; [nan]
    compares false with everything. *)

Inductive float6 : Type :=
  | Finite (x : dec6)
  | Infinite (negative : bool)
  | NaN.

(** An upper-case letter as its lower-case letter, by character code. *)
Definition lower (c : ascii) : ascii :=
  let code := N_of_ascii c in
  if ((65 <=? code) && (code <=? 90))%N then ascii_of_N (code + 32) else c.

Fixpoint str_lower (s : string) : string :=
  match s with
  | EmptyString => EmptyString
  | String c s' => String (lower c) (str_lower s')
  end.

(** [float(s)] when [s] names a float that is no finite number. *)
Definition non_finite_of_string (s : string) : option float6 :=
  let '(negative, body) :=
    match s with
    | String c s' =>
        if Ascii.eqb c "-" then (true, s')
        else if Ascii.eqb c "+" then (false, s')
        else (false, s)
    | EmptyString => (false, s)
    end in
  let word := str_lower body in
  if String.eqb word "inf" || String.eqb word "infinity" then Some (Infinite negative)
  else if String.eqb word "nan" then Some NaN
  else None.

Definition float6_of_string (s : string) : option float6 :=
  match non_finite_of_string s with
  | Some y => Some y
  | None => Finite <$> dec6_of_string s
  end.

(** ["%f" % x] *)
Definition float6_format (x : float6) : string :=
  match x with
  | Finite d => dec6_format d
  | Infinite false => "inf"
  | Infinite true => "-inf"
  | NaN => "nan"
  end.

(** [str(x)] *)
Definition float6_str (x : float6) : string :=
  match x with
  | Finite d => dec6_str d
  | Infinite false => "inf"
  | Infinite true => "-inf"
  | NaN => "nan"
  end.

(** [x >= y] *)
Definition float6_ge (x y : float6) : bool :=
  match x, y with
  | NaN, _ | _, NaN => false
  | Infinite false, _ => true
  | _, Infinite true => true
  | Infinite true, _ => false
  | _, Infinite false => false
  | Finite a, Finite b => (micro a >=? micro b)%Z
  end.

(** [x >= n] for an integer [n] *)
Definition float6_ge_int (x : float6) (n : Z) : bool :=
  match x with
  | NaN => false
  | Infinite negative => negb negative
  | Finite a => (micro a >=? n * 1000000)%Z
  end.

(** The instance has a lower priority than that of the decimal model, which
    stays the model of a statement that leaves the float type open. *)
#[export] Instance float6_float : PyFloat float6 | 10 := {
  float_of_string := float6_of_string;
  format_f := float6_format;
  float_str := float6_str;
  float_ge := float6_ge;
  float_ge_int := float6_ge_int
}.

(** ** Further example files and records *)

(** Two complete records, the less probable one first. *)
Definition two_records : string :=
  unlines [ "p 0.25"; "r 1 0 0"; "0 1 0"; "0 0 1"; "x0 0 0 0"; "id low";
            "p 0.75"; "r 1 0 0"; "0 1 0"; "0 0 1"; "x0 0 0 0"; "id high" ].

(** A pose whose translation holds the three floats that are no finite
    number. *)
Definition unbounded_pose : sp.StablePose float6 :=
  sp.mk (Finite (Dec6 500000))
        ((Finite (Dec6 1000000), Finite (Dec6 0), Finite (Dec6 0)),
         (Finite (Dec6 0), Finite (Dec6 1000000), Finite (Dec6 0)),
         (Finite (Dec6 0), Finite (Dec6 0), Finite (Dec6 1000000)))
        (Infinite false, Infinite true, NaN)
        (IdStr "7").

(** The file that [write] makes of [unbounded_pose] with threshold 0. *)
Definition unbounded_pose_file : string :=
  unlines [ "#############################################################";
            "# STP file generated by UC Berkeley Automation Sciences Lab #";
            "#                                                           #";
            "# Num Poses: 1                                              #";
            "# Min Probability: 0                                        #";
            "#                                                           #";
            "#############################################################";
            EmptyString;
            "p 0.500000";
            "r 1.000000 0.000000 0.000000";
            "  0.000000 1.000000 0.000000";
            "  0.000000 0.000000 1.000000";
            "x0 inf -inf nan";
            "id 7";
            EmptyString;
            EmptyString ].

(** * Properties *)

(** ** Strings *)

Lemma str_app_cons (c : ascii) (s t : string) :
  String c s +:+ t = String c (s +:+ t).
Proof. reflexivity. Qed.

Lemma str_app_nil_l (s : string) : EmptyString +:+ s = s.
Proof. reflexivity. Qed.

Lemma str_app_nil_r (s : string) : s +:+ EmptyString = s.
Proof. induction s as [|c s IH]; [done|]. by rewrite str_app_cons, IH. Qed.

Lemma str_app_assoc (a b c : string) : (a +:+ b) +:+ c = a +:+ (b +:+ c).
Proof. induction a as [|x a IH]; [done|]. by rewrite !str_app_cons, IH. Qed.

Lemma str_length_app (a b : string) :
  String.length (a +:+ b) = (String.length a + String.length b)%nat.
Proof. induction a as [|x a IH]; [done|]. rewrite str_app_cons. simpl. by rewrite IH. Qed.

Lemma str_take_drop (n : nat) (s : string) : str_take n s +:+ str_drop n s = s.
Proof.
  revert s. induction n as [|n IH]; intros [|c s]; simpl; try done.
  by rewrite str_app_cons, IH.
Qed.

Lemma str_take_app_length (a b : string) : str_take (String.length a) (a +:+ b) = a.
Proof.
  induction a as [|x a IH].
  - by destruct b.
  - rewrite str_app_cons. simpl. by rewrite IH.
Qed.

Lemma str_concat_app (l1 l2 : list string) :
  str_concat (l1 ++ l2) = str_concat l1 +:+ str_concat l2.
Proof.
  induction l1 as [|x l1 IH]; cbn [app str_concat foldr]; [by rewrite str_app_nil_l|].
  fold (str_concat (l1 ++ l2)). fold (str_concat l1).
  by rewrite IH, str_app_assoc.
Qed.

(** ** The constructor and the output path *)

Lemma splitext_loop_join (p : string) (dotIndex filenameIndex : Z) (n : nat) :
  (splitext_loop p dotIndex filenameIndex n).1
    +:+ (splitext_loop p dotIndex filenameIndex n).2 = p.
Proof.
  revert filenameIndex. induction n as [|n IH]; intros k; simpl.
  - apply str_app_nil_r.
  - destruct (negb _); simpl; [apply str_take_drop | apply IH].
Qed.

(** The two halves that [splitext] returns always concatenate to the path. *)
Lemma splitext_join (p : string) : (splitext p).1 +:+ (splitext p).2 = p.
Proof.
  unfold splitext. destruct (_ <? _).
  - apply splitext_loop_join.
  - apply str_app_nil_r.
Qed.

Lemma slice_to_neg_app (a b : string) :
  slice_to_neg (String.length b) (a +:+ b) = a.
Proof.
  unfold slice_to_neg. rewrite str_length_app.
  replace (Z.to_nat _) with (String.length a) by lia.
  apply str_take_app_length.
Qed.

Lemma init_accepts (path : string) (fs : FS) :
  (splitext path).2 = ".stp" ->
  init path fs = (Return {| filepath_ := path |}, fs).
Proof.
  intros Hext. unfold init. simpl.
  destruct (splitext path) as [file_root file_ext]. simpl in Hext. by subst.
Qed.

Lemma init_rejects (path : string) (fs : FS) :
  (splitext path).2 <> ".stp" ->
  init path fs =
    (Raise (ValueError ("Extension " +:+ (splitext path).2 +:+ " invalid for STPs")), fs).
Proof.
  intros Hext. unfold init. simpl.
  destruct (splitext path) as [file_root file_ext]. simpl in *.
  apply eqb_neq in Hext. by rewrite Hext.
Qed.

Lemma init_inv (path : string) (fs fs' : FS) (self : StablePoseFile) :
  init path fs = (Return self, fs') ->
  (splitext path).2 = ".stp" /\ self = {| filepath_ := path |} /\ fs' = fs.
Proof.
  intros Hinit.
  destruct (decide ((splitext path).2 = ".stp")) as [Hext|Hext].
  - rewrite (init_accepts _ _ Hext) in Hinit. by simplify_eq.
  - rewrite (init_rejects _ _ Hext) in Hinit. by simplify_eq.
Qed.

(** A path that the constructor accepts ends in [".stp"]. *)
Lemma accepted_suffix (path : string) (fs fs' : FS) (self : StablePoseFile) :
  init path fs = (Return self, fs') ->
  path = (splitext path).1 +:+ ".stp".
Proof.
  intros (Hext & _ & _)%init_inv. by rewrite <- Hext, splitext_join.
Qed.

Lemma write_path_accepted (path : string) (fs fs' : FS) (self : StablePoseFile) :
  init path fs = (Return self, fs') -> write_path self = filepath_ self.
Proof.
  intros Hinit. pose proof (accepted_suffix _ _ _ _ Hinit) as Hsuf.
  apply init_inv in Hinit as (_ & -> & _). unfold write_path. simpl.
  rewrite Hsuf at 1. by rewrite (slice_to_neg_app _ ".stp"), <- Hsuf.
Qed.

Local Open Scope nat_scope.

(** ** The loop of [read], seen from the rows that remain *)

Section ReadFacts.
Context {F : Type} `{PyFloat F}.

Lemma getitem_drop {A : Type} (l : list A) (i k : nat) :
  getitem (drop i l) k = getitem l (i + k).
Proof. unfold getitem. by rewrite lookup_drop. Qed.

Lemma getitem2_drop {A : Type} (data : list (list A)) (i k j : nat) :
  getitem2 (drop i data) k j = getitem2 data (i + k) j.
Proof. unfold getitem2. by rewrite getitem_drop. Qed.

Lemma read_body_drop (data : list (list string)) (i : nat) (st : read_locals) :
  read_body (drop i data) 0 st = read_body data i st.
Proof.
  unfold read_body, read_identifier.
  rewrite !getitem2_drop, getitem_drop.
  by replace (i + 0)%nat with i by lia.
Qed.

Lemma for_range_read_suffix (data : list (list string)) (n i : nat) (st : read_locals) :
  (i + n)%nat = length data ->
  for_range (read_body data) (seq i n) st = read_suffix (drop i data) st.
Proof.
  revert i st. induction n as [|n IH]; intros i st Hlen.
  - rewrite drop_ge by lia. done.
  - destruct (lookup_lt_is_Some_2 data i) as [row Hrow]; [lia|].
    rewrite (drop_S _ _ _ Hrow). simpl.
    rewrite <- (read_body_drop data i), (drop_S _ _ _ Hrow).
    destruct (read_body _ 0 st) as [e|st']; simpl; [done|].
    apply IH. lia.
Qed.

Lemma read_data_suffix (data : list (list string)) :
  read_data data =
    (st <- read_suffix data {| stable_poses := []; identifier := None; stp_id := None |};;
     Return (stable_poses st)).
Proof.
  unfold read_data. by rewrite for_range_read_suffix, drop_0 by lia.
Qed.

Lemma getitem2_Return {A : Type} (data : list (list A)) (i j : nat) (t : A) :
  getitem2 data i j = Return t <-> data !! i ≫= (λ row, row !! j) = Some t.
Proof.
  unfold getitem2, getitem, Return, Raise.
  destruct (data !! i) as [row|]; simpl; [|naive_solver].
  destruct (row !! j); simpl; naive_solver.
Qed.

Lemma to_float_Return (t : string) (x : F) :
  to_float t = Return x <-> float_of_string t = Some x.
Proof. unfold to_float, Return, Raise. destruct (float_of_string t); naive_solver. Qed.

End ReadFacts.

Section ReadBody.
Context {F : Type} `{PyFloat F}.

Lemma read_body_not_p (data : list (list string)) (i : nat) (row : list string)
    (st : read_locals (F:=F)) :
  data !! i = Some row -> is_p_line row = false ->
  read_body data i st = Return st.
Proof.
  intros Hrow Hp. unfold read_body, getitem. rewrite Hrow. simpl. by rewrite Hp.
Qed.

Lemma vec_at_tokens (data : list (list string)) (i j : nat) (a b c : string) :
  token_at data i j = Some a -> token_at data i (j + 1) = Some b ->
  token_at data i (j + 2) = Some c ->
  vec_at data i j = floats3 a b c.
Proof. intros Ha Hb Hc. unfold vec_at, float_at. by rewrite Ha, Hb, Hc. Qed.

Lemma read_identifier_identifier (data : list (list string)) (i : nat)
    (st : read_locals (F:=F)) :
  identifier (read_identifier data i st) = identifier_after data i (identifier st).
Proof.
  unfold read_identifier, identifier_after, token_at.
  destruct (getitem2 data (i + 5) 1) as [e|t] eqn:Hg; simpl.
  - destruct (data !! (i + 5)%nat ≫= _) as [t|] eqn:Ht; [|done].
    apply getitem2_Return in Ht. unfold Return in Ht. congruence.
  - apply (getitem2_Return data) in Hg. by rewrite Hg.
Qed.

Lemma read_identifier_stable_poses (data : list (list string)) (i : nat)
    (st : read_locals (F:=F)) :
  stable_poses (read_identifier data i st) = stable_poses st.
Proof. unfold read_identifier. by destruct (getitem2 data (i + 5) 1). Qed.

Lemma getitem2_cases {A : Type} (data : list (list A)) (i j : nat) :
  match getitem2 data i j with
  | inr t => data !! i ≫= (λ row, row !! j) = Some t
  | inl e => data !! i ≫= (λ row, row !! j) = None /\ e = IndexError
  end.
Proof.
  unfold getitem2, getitem, Return, Raise.
  destruct (data !! i) as [row|]; simpl; [|done].
  by destruct (row !! j).
Qed.

Lemma astype_vec_cases (a b c : string) :
  match astype_vec (a, b, c) with
  | inr v => floats3 a b c = Some v
  | inl e => floats3 a b c = None /\ exists msg, e = ValueError msg
  end.
Proof.
  unfold astype_vec, floats3, to_float, Return, Raise.
  destruct (float_of_string a); simpl; [|eauto].
  destruct (float_of_string b); simpl; [|eauto].
  destruct (float_of_string c); simpl; eauto.
Qed.

Lemma astype_mat_cases (a0 a1 a2 b0 b1 b2 c0 c1 c2 : string) :
  match astype_mat ((a0, a1, a2), (b0, b1, b2), (c0, c1, c2)) with
  | inr m =>
      exists a b c, m = (a, b, c) /\ floats3 a0 a1 a2 = Some a /\
                    floats3 b0 b1 b2 = Some b /\ floats3 c0 c1 c2 = Some c
  | inl e =>
      (floats3 a0 a1 a2 = None \/ floats3 b0 b1 b2 = None \/ floats3 c0 c1 c2 = None)
      /\ exists msg, e = ValueError msg
  end.
Proof.
  unfold astype_mat.
  pose proof (astype_vec_cases a0 a1 a2) as Hu.
  pose proof (astype_vec_cases b0 b1 b2) as Hv.
  pose proof (astype_vec_cases c0 c1 c2) as Hw.
  destruct (astype_vec (a0, a1, a2)) as [e|a]; cbn [bind]; [tauto|].
  destruct (astype_vec (b0, b1, b2)) as [e|b]; cbn [bind]; [tauto|].
  destruct (astype_vec (c0, c1, c2)) as [e|c]; cbn [bind]; [tauto|].
  unfold Return. eauto 10.
Qed.

Lemma block_fields_Some (data : list (list string)) (i : nat)
    (p : F) (r0 r1 r2 x0 : vec3 F) :
  float_at data i 1 = Some p -> vec_at data (i + 1) 1 = Some r0 ->
  vec_at data (i + 2) 0 = Some r1 -> vec_at data (i + 3) 0 = Some r2 ->
  vec_at data (i + 4) 1 = Some x0 ->
  block_fields data i = Some (p, (r0, r1, r2), x0).
Proof. intros Hp H0 H1 H2 H3. unfold block_fields. by rewrite Hp, H0, H1, H2, H3. Qed.

Lemma block_fields_None (data : list (list string)) (i : nat) :
  float_at data i 1 = None \/ vec_at data (i + 1) 1 = None \/
  vec_at data (i + 2) 0 = None \/ vec_at data (i + 3) 0 = None \/
  vec_at data (i + 4) 1 = None ->
  block_fields data i = None.
Proof.
  unfold block_fields. intros Hnone.
  destruct (float_at data i 1); simpl; [|done].
  destruct (vec_at data (i + 1) 1); simpl; [|done].
  destruct (vec_at data (i + 2) 0); simpl; [|done].
  destruct (vec_at data (i + 3) 0); simpl; [|done].
  destruct (vec_at data (i + 4) 1); simpl; [|done].
  by destruct Hnone as [?|[?|[?|[?|?]]]].
Qed.

Lemma vec_at_token_None (data : list (list string)) (i j : nat) :
  token_at data i j = None \/ token_at data i (j + 1) = None \/
  token_at data i (j + 2) = None ->
  vec_at data i j = None.
Proof.
  unfold vec_at, float_at. intros Hnone.
  destruct (token_at data i j) as [a|]; simpl; [|done].
  destruct (token_at data i (j + 1)) as [b|]; simpl; [|by destruct (float_of_string a)].
  destruct (token_at data i (j + 2)) as [c|]; simpl; [by destruct Hnone as [?|[?|?]]|].
  by destruct (float_of_string a), (float_of_string b).
Qed.

Lemma to_float_cases (t : string) :
  match to_float t with
  | inr x => float_of_string t = Some x
  | inl e => float_of_string t = None /\ exists msg, e = ValueError msg
  end.
Proof. unfold to_float, Return, Raise. destruct (float_of_string t); eauto. Qed.

Ltac step_lookup :=
  lazymatch goal with
  | |- match bind (getitem2 ?d ?k ?j) _ with _ => _ end =>
      let Hc := fresh "Hc" in
      pose proof (getitem2_cases d k j) as Hc;
      fold (token_at d k j) in Hc;
      destruct (getitem2 d k j) as [?|?]; cbn [bind];
      [destruct Hc as [Hc ->]; left; split; [|by left] |]
  end.

Ltac token_none :=
  apply block_fields_None; unfold float_at;
  first
    [ left; by match goal with Hc : token_at _ _ _ = None |- _ => rewrite Hc end
    | right; left; apply vec_at_token_None; simpl; tauto
    | right; right; left; apply vec_at_token_None; simpl; tauto
    | right; right; right; left; apply vec_at_token_None; simpl; tauto
    | right; right; right; right; apply vec_at_token_None; simpl; tauto ].

(** One iteration of [read] on a ["p"] row: either the thirteen numbers of
    the block are there and an identifier is bound, and the record is
    appended; or the block is broken; or the numbers are there and no
    identifier is bound. *)
Lemma read_body_p_spec (data : list (list string)) (i : nat) (row : list string)
    (st : read_locals (F:=F)) :
  data !! i = Some row -> is_p_line row = true ->
  match read_body data i st with
  | inr st' =>
      exists p r x0 ident,
        block_fields data i = Some (p, r, x0) /\
        identifier_after data i (identifier st) = Some ident /\
        st' = {| stable_poses := stable_poses st ++ [sp.mk p r x0 (IdStr ident)];
                 identifier := Some ident;
                 stp_id := stp_id (read_identifier data i st) |}
  | inl e =>
      (block_fields data i = None /\ MalformedRecord e) \/
      (is_Some (block_fields data i) /\
       identifier_after data i (identifier st) = None /\
       e = UnboundLocalError "identifier")
  end.
Proof.
  intros Hrow Hp. unfold read_body, getitem.
  rewrite Hrow. cbn [bind Return]. rewrite Hp.
  step_lookup; [token_none|].
  pose proof (to_float_cases s) as Hf.
  destruct (to_float s) as [e|p]; cbn [bind].
  { destruct Hf as [Hf Hmsg]. left. split; [|by right].
    apply block_fields_None. left. unfold float_at. by rewrite Hc. }
  do 9 (step_lookup; [token_none|]).
  pose proof (astype_mat_cases s0 s1 s2 s3 s4 s5 s6 s7 s8) as Hm.
  rewrite <- (vec_at_tokens data (i + 1) 1 s0 s1 s2),
    <- (vec_at_tokens data (i + 2) 0 s3 s4 s5),
    <- (vec_at_tokens data (i + 3) 0 s6 s7 s8) in Hm by (simpl; assumption).
  destruct (astype_mat _) as [e|r]; cbn [bind].
  { destruct Hm as [Hm Hmsg]. left. split; [|by right].
    apply block_fields_None. tauto. }
  destruct Hm as (r0 & r1 & r2 & -> & Hr0 & Hr1 & Hr2).
  do 3 (step_lookup; [token_none|]).
  pose proof (astype_vec_cases s9 s10 s11) as Hv.
  rewrite <- (vec_at_tokens data (i + 4) 1 s9 s10 s11) in Hv by (simpl; assumption).
  destruct (astype_vec _) as [e|x0]; cbn [bind].
  { destruct Hv as [Hv Hmsg]. left. split; [|by right].
    apply block_fields_None. tauto. }
  assert (block_fields data i = Some (p, (r0, r1, r2), x0)) as Hfields.
  { apply block_fields_Some; try done. unfold float_at. by rewrite Hc. }
  rewrite read_identifier_identifier, read_identifier_stable_poses.
  destruct (identifier_after data i (identifier st)) as [ident|] eqn:Hid.
  - unfold Return. eauto 10.
  - right. by rewrite Hfields.
Qed.

End ReadBody.

(** ** The whole loop of [read] *)

Lemma p_lines_from_elem (rows : list (list string)) (i k : nat) :
  k ∈ p_lines_from i rows <->
  exists row, i <= k /\ rows !! (k - i)%nat = Some row /\ is_p_line row = true.
Proof.
  revert i. induction rows as [|row rest IH]; intros i; simpl.
  - split; [by intros ?%elem_of_nil | by intros (? & ? & ? & ?)].
  - assert (k ∈ p_lines_from (S i) rest <->
            exists row', i < k /\ (row :: rest) !! (k - i)%nat = Some row'
                         /\ is_p_line row' = true)%nat as Hrest.
    { rewrite IH. split; intros (row' & Hle & Hlook & Hp); exists row'.
      - replace (k - i)%nat with (S (k - S i)) by lia. split; [lia|done].
      - replace (k - i)%nat with (S (k - S i)) in Hlook by lia. split; [lia|done]. }
    destruct (is_p_line row) eqn:Hrow.
    + rewrite elem_of_cons, Hrest. split.
      * intros [->|(row' & Hlt & Hlook & Hp)].
        -- exists row. rewrite Nat.sub_diag. split; [lia|done].
        -- exists row'. split; [lia|done].
      * intros (row' & Hle & Hlook & Hp).
        destruct (decide (k = i)) as [->|Hne]; [by left|].
        right. exists row'. split; [lia|done].
    + rewrite Hrest. split.
      * intros (row' & Hlt & Hlook & Hp). exists row'. split; [lia|done].
      * intros (row' & Hle & Hlook & Hp).
        destruct (decide (k = i)) as [->|Hne].
        -- rewrite Nat.sub_diag in Hlook. simpl in Hlook. congruence.
        -- exists row'. split; [lia|done].
Qed.

(** [p_lines] lists exactly the rows that start with ["p"]. *)
Lemma p_lines_elem (data : list (list string)) (k : nat) :
  k ∈ p_lines data <-> exists row, data !! k = Some row /\ is_p_line row = true.
Proof.
  unfold p_lines. rewrite p_lines_from_elem. rewrite Nat.sub_0_r.
  split; [intros (row & _ & ?); eauto | intros (row & ?); exists row; split; [lia|done]].
Qed.

Lemma p_lines_from_lower (rows : list (list string)) (i : nat) :
  Forall (λ k, i <= k)%nat (p_lines_from i rows).
Proof.
  apply Forall_forall. intros k (row & Hle & _)%p_lines_from_elem. lia.
Qed.

Lemma p_lines_from_sorted (rows : list (list string)) (i : nat) :
  StronglySorted lt (p_lines_from i rows).
Proof.
  revert i. induction rows as [|row rest IH]; intros i; simpl; [constructor|].
  destruct (is_p_line row); [|apply IH].
  constructor; [apply IH|].
  eapply Forall_impl; [apply (p_lines_from_lower rest (S i))|]. simpl. lia.
Qed.

(** ... in increasing order of the row index. *)
Lemma p_lines_sorted (data : list (list string)) : StronglySorted lt (p_lines data).
Proof. apply p_lines_from_sorted. Qed.

Lemma p_lines_from_length (rows : list (list string)) (i : nat) :
  length (p_lines_from i rows) = length (List.filter is_p_line rows).
Proof.
  revert i. induction rows as [|row rest IH]; intros i; simpl; [done|].
  destruct (is_p_line row); simpl; by rewrite IH.
Qed.

Section ReadLoop.
Context {F : Type} `{PyFloat F}.

Lemma drop_cons_inv {A : Type} (l : list A) (i : nat) (x : A) (rest : list A) :
  drop i l = x :: rest -> l !! i = Some x /\ drop (S i) l = rest.
Proof.
  intros Hdrop. split.
  - rewrite <- (Nat.add_0_r i), <- lookup_drop, Hdrop. done.
  - replace (S i) with (i + 1) by lia. rewrite <- drop_drop, Hdrop. done.
Qed.

(** A run of the loop that ends without exception has appended one record
    per ["p"] row, in row order, each read from its own block. *)
Lemma read_suffix_inv (data : list (list string)) (rows : list (list string))
    (i : nat) (st st' : read_locals (F:=F)) :
  drop i data = rows ->
  read_suffix rows st = Return st' ->
  exists new,
    stable_poses st' = stable_poses st ++ new /\
    Forall2 (record_at data) (p_lines_from i rows) new.
Proof.
  revert i st. induction rows as [|row rest IH]; intros i st Hdrop Hread.
  - injection Hread as <-. exists []. by rewrite app_nil_r.
  - destruct (drop_cons_inv _ _ _ _ Hdrop) as [Hrow Hrest].
    simpl in Hread. rewrite <- Hdrop, read_body_drop in Hread. simpl.
    destruct (is_p_line row) eqn:Hp.
    + pose proof (read_body_p_spec data i row st Hrow Hp) as Hbody.
      destruct (read_body data i st) as [e|st1]; [discriminate Hread|].
      destruct Hbody as (p & r & x0 & ident & Hfields & Hid & ->).
      destruct (IH (S i) _ Hrest Hread) as (new & Hnew & Hall).
      exists (sp.mk p r x0 (IdStr ident) :: new). split.
      * rewrite Hnew. simpl. by rewrite <- app_assoc.
      * by constructor.
    + rewrite (read_body_not_p data i row st Hrow Hp) in Hread.
      apply (IH (S i) _ Hrest Hread).
Qed.

Lemma read_data_inv (data : list (list string)) (recs : list (sp.StablePose F)) :
  read_data data = Return recs ->
  Forall2 (record_at data) (p_lines data) recs.
Proof.
  rewrite read_data_suffix. intros Hread.
  destruct (read_suffix data _) as [e|st'] eqn:Hsuffix; [discriminate Hread|].
  injection Hread as <-.
  destruct (read_suffix_inv data data 0 _ _ (drop_0 data) Hsuffix) as (new & -> & Hall).
  done.
Qed.

(** The loop stops with an exception at the latest on a ["p"] row whose
    block is broken. *)
Lemma read_suffix_broken (data : list (list string)) (rows : list (list string))
    (i k : nat) (row : list string) (st : read_locals (F:=F)) :
  drop i data = rows ->
  i <= k -> data !! k = Some row -> is_p_line row = true ->
  block_fields data k = None ->
  exists e,
    read_suffix rows st = Raise e /\
    (MalformedRecord e \/
     e = UnboundLocalError "identifier" /\
     exists j rowj, j < k /\ data !! j = Some rowj /\ is_p_line rowj = true /\
                    token_at data (j + 5) 1 = None).
Proof.
  intros Hdrop Hle Hrow Hp Hbroken.
  revert i st Hdrop Hle. induction rows as [|row' rest IH]; intros i st Hdrop Hle.
  - apply (f_equal length) in Hdrop. rewrite length_drop in Hdrop. simpl in Hdrop.
    apply lookup_lt_Some in Hrow. lia.
  - destruct (drop_cons_inv _ _ _ _ Hdrop) as [Hrow' Hrest].
    simpl. rewrite <- Hdrop, read_body_drop.
    destruct (is_p_line row') eqn:Hp'.
    + pose proof (read_body_p_spec data i row' st Hrow' Hp') as Hbody.
      destruct (read_body data i st) as [e|st1]; cbn [bind].
      * exists e. split; [done|].
        destruct Hbody as [[_ Hmal]|(Hsome & Hid & ->)]; [by left|right].
        split; [done|].
        assert (i <> k) as Hne.
        { intros ->. rewrite Hbroken in Hsome. by destruct Hsome. }
        exists i, row'. split; [lia|]. split; [done|]. split; [done|].
        unfold identifier_after in Hid. by destruct (token_at data (i + 5) 1).
      * destruct Hbody as (p & r & x0 & ident & Hfields & _).
        assert (i <> k) as Hne by (intros ->; congruence).
        apply (IH (S i)); [done|lia].
    + rewrite (read_body_not_p data i row' st Hrow' Hp'). cbn [bind Return].
      assert (i <> k) as Hne by (intros ->; congruence).
      apply (IH (S i)); [done|lia].
Qed.

End ReadLoop.

(** ** The text that [write] produces *)

Section Layout.
Context {F : Type} `{PyFloat F}.

Lemma build_R_list_retained (stable_poses : list (sp.StablePose F))
    (min_prob : number F) :
  build_R_list stable_poses min_prob = map entry_of (retained stable_poses min_prob).
Proof.
  unfold build_R_list, retained.
  enough (forall acc,
    fold_left
      (λ R_list pose,
         if ge_min_prob (sp.p pose) min_prob
         then R_list ++ [(sp.p pose, sp.r pose, sp.x0 pose, sp.id pose)]
         else R_list) stable_poses acc
    = acc ++ map entry_of
               (List.filter (λ pose, ge_min_prob (sp.p pose) min_prob) stable_poses))
    as Hgen by apply (Hgen []).
  induction stable_poses as [|pose rest IH]; intros acc; simpl.
  - by rewrite app_nil_r.
  - rewrite IH. destruct (ge_min_prob (sp.p pose) min_prob); simpl; [|done].
    by rewrite <- app_assoc.
Qed.

Lemma write_spaces_spaces (n : Z) (f : string) :
  write_spaces n f = f +:+ spaces (Z.to_nat n).
Proof.
  unfold write_spaces. induction (Z.to_nat n) as [|k IH]; simpl.
  - by rewrite str_app_nil_r.
  - rewrite IH. unfold fwrite. rewrite str_app_assoc. f_equal.
    clear IH. induction k as [|k IH]; [done|].
    simpl. rewrite str_app_cons. by rewrite IH.
Qed.

Lemma write_body_entry (pre rest : list (sp.StablePose F)) (pose : sp.StablePose F)
    (f : string) :
  write_body (map entry_of (pre ++ pose :: rest)) (length pre) f
  = Return (f +:+ record_text pose).
Proof.
  unfold write_body, getitem.
  rewrite list_lookup_fmap, list_lookup_middle by done.
  cbn [fmap option_fmap option_map bind Return].
  unfold entry_of, record_text, fwrite.
  destruct (sp.r pose) as [[r0 r1] r2].
  by rewrite !str_app_assoc.
Qed.

Lemma write_loop (pre kept : list (sp.StablePose F)) (f : string) :
  for_range (write_body (map entry_of (pre ++ kept)))
    (seq (length pre) (length kept)) f
  = Return (f +:+ str_concat (map record_text kept)).
Proof.
  revert pre f. induction kept as [|pose rest IH]; intros pre f; simpl.
  - by rewrite str_app_nil_r.
  - rewrite write_body_entry. cbn [bind Return].
    replace (pre ++ pose :: rest) with ((pre ++ [pose]) ++ rest)
      by (by rewrite <- app_assoc).
    replace (S (length pre)) with (length (pre ++ [pose]))
      by (rewrite length_app; simpl; lia).
    rewrite IH. by rewrite str_app_assoc.
Qed.

(** The loops of [write] do not raise (the index [i] of the second loop is
    always inside [R_list]), and the text is the fixed layout over the
    retained poses. *)
Lemma write_text_layout (stable_poses : list (sp.StablePose F)) (min_prob : number F) :
  write_text stable_poses min_prob
  = Return (stp_layout (retained stable_poses min_prob) (str_number min_prob)).
Proof.
  unfold write_text. rewrite build_R_list_retained.
  rewrite length_map.
  rewrite !write_spaces_spaces. unfold fwrite.
  match goal with
  | |- context [for_range _ _ ?f] =>
      pose proof (write_loop [] (retained stable_poses min_prob) f) as Hloop
  end.
  cbn [app length] in Hloop. rewrite Hloop. cbn [bind Return].
  f_equal. unfold stp_layout, banner, num_poses_line, min_prob_line,
    border_line, attribution_line, blank_comment_line.
  rewrite str_app_nil_l, !str_app_assoc.
  repeat f_equal; lia.
Qed.

End Layout.

(** ** Lines and tokens of a written text *)

Lemma str_forall_app (P : ascii -> bool) (a b : string) :
  str_forall P (a +:+ b) = str_forall P a && str_forall P b.
Proof.
  induction a as [|c a IH]; [done|].
  rewrite str_app_cons. simpl. by rewrite IH, andb_assoc.
Qed.

Lemma line_ok_app (a b : string) : line_ok (a +:+ b) = line_ok a && line_ok b.
Proof. apply str_forall_app. Qed.

Lemma no_space_line_ok (s : string) : no_space s = true -> line_ok s = true.
Proof.
  unfold no_space, line_ok. induction s as [|c s IH]; [done|]. simpl.
  intros [Hc Hs]%andb_true_iff. rewrite (IH Hs), andb_true_r.
  destruct (Ascii.eqb_spec c newline) as [->|]; [done|done].
Qed.

Lemma is_token_no_space (t : string) : is_token t = true -> no_space t = true.
Proof. unfold is_token. by intros [_ ?]%andb_true_iff. Qed.

Lemma is_token_line_ok (t : string) : is_token t = true -> line_ok t = true.
Proof. intros ?%is_token_no_space. by apply no_space_line_ok. Qed.

Lemma is_token_nonempty (t : string) : is_token t = true -> String.eqb t EmptyString = false.
Proof. unfold is_token. intros [?%negb_true_iff _]%andb_true_iff. done. Qed.

Lemma spaces_line_ok (n : nat) : line_ok (spaces n) = true.
Proof. induction n as [|n IH]; [done|]. simpl. apply IH. Qed.

Lemma readlines_go_line (l cur rest : string) :
  line_ok l = true ->
  readlines_go cur (l +:+ nl +:+ rest) = (cur +:+ l +:+ nl) :: readlines_go EmptyString rest.
Proof.
  revert cur. induction l as [|c l IH]; intros cur Hok.
  - change (EmptyString +:+ nl +:+ rest) with (String newline rest). simpl. done.
  - simpl in Hok. apply andb_true_iff in Hok as [Hc Hl].
    rewrite str_app_cons. simpl.
    apply negb_true_iff in Hc. rewrite Hc, (IH _ Hl).
    by rewrite str_app_assoc.
Qed.

(** A newline-free line followed by a newline is the next line read. *)
Lemma readlines_line (l rest : string) :
  line_ok l = true ->
  readlines (l +:+ nl +:+ rest) = (l +:+ nl) :: readlines rest.
Proof. intros Hok. unfold readlines. by rewrite (readlines_go_line l EmptyString rest Hok). Qed.

Lemma split_go_run (t cur rest : string) :
  no_space t = true -> split_go cur (t +:+ rest) = split_go (cur +:+ t) rest.
Proof.
  revert cur. induction t as [|c t IH]; intros cur Hns.
  - by rewrite str_app_nil_r.
  - unfold no_space in Hns. simpl in Hns. apply andb_true_iff in Hns as [Hc Ht].
    rewrite str_app_cons. simpl.
    apply negb_true_iff in Hc. rewrite Hc, (IH _ Ht).
    by rewrite str_app_assoc.
Qed.

(** A token followed by a whitespace character is the next token. *)
Lemma split_token (t : string) (c : ascii) (rest : string) :
  is_token t = true -> isspace c = true ->
  split_go EmptyString (t +:+ String c rest) = t :: split_go EmptyString rest.
Proof.
  intros Htok Hc.
  rewrite (split_go_run t EmptyString _ (is_token_no_space _ Htok)).
  rewrite str_app_nil_l. simpl.
  by rewrite Hc, (is_token_nonempty _ Htok).
Qed.

Lemma split_token_sp (t rest : string) :
  is_token t = true -> split_go EmptyString (t +:+ " " +:+ rest) = t :: split_go EmptyString rest.
Proof. intros Htok. by apply (split_token t " " rest). Qed.

Lemma split_token_nl (t : string) :
  is_token t = true -> split_go EmptyString (t +:+ nl) = [t].
Proof. intros Htok. by apply (split_token t newline EmptyString). Qed.

Lemma string_of_uint_no_space (d : Decimal.uint) :
  no_space (NilEmpty.string_of_uint d) = true.
Proof. induction d; simpl; done. Qed.

Lemma str_of_nat_line_ok (n : nat) : line_ok (str_of_nat n) = true.
Proof. apply no_space_line_ok, string_of_uint_no_space. Qed.

Lemma str_of_Z_no_space (n : Z) : no_space (str_of_Z n) = true.
Proof.
  unfold str_of_Z, NilEmpty.string_of_int.
  destruct (Z.to_int n); [|unfold no_space; simpl]; apply string_of_uint_no_space.
Qed.

Section WrittenRows.
Context {F : Type} `{PyFloat F}.

Hypothesis format_f_token : forall x : F, is_token (format_f x) = true.

Lemma format_3f_line_ok (v : vec3 F) : line_ok (format_3f v) = true.
Proof.
  destruct v as [[a b] c]. unfold format_3f.
  rewrite !line_ok_app, !(is_token_line_ok (format_f _)) by done. done.
Qed.

Lemma split_3f (a b c : F) :
  split_go EmptyString (format_3f (a, b, c) +:+ nl) = [format_f a; format_f b; format_f c].
Proof.
  unfold format_3f. rewrite !str_app_assoc.
  rewrite !split_token_sp by done. by rewrite split_token_nl.
Qed.

Lemma split_tagged_3f (tag : string) (a b c : F) :
  is_token tag = true ->
  split ((tag +:+ " " +:+ format_3f (a, b, c)) +:+ nl)
  = [tag; format_f a; format_f b; format_f c].
Proof.
  intros Htag. unfold split. rewrite !str_app_assoc.
  rewrite split_token_sp by done. by rewrite split_3f.
Qed.

Lemma split_untagged_3f (a b c : F) :
  split (("  " +:+ format_3f (a, b, c)) +:+ nl)
  = [format_f a; format_f b; format_f c].
Proof. unfold split. rewrite <- split_3f. by rewrite str_app_assoc. Qed.

Lemma split_tagged (tag t : string) :
  is_token tag = true -> is_token t = true ->
  split ((tag +:+ " " +:+ t) +:+ nl) = [tag; t].
Proof.
  intros Htag Ht. unfold split. rewrite !str_app_assoc.
  rewrite split_token_sp by done. by rewrite split_token_nl.
Qed.

Lemma readlines_line2 (a b rest : string) :
  line_ok a = true -> line_ok b = true ->
  readlines (a +:+ b +:+ nl +:+ rest) = ((a +:+ b) +:+ nl) :: readlines rest.
Proof.
  intros Ha Hb. rewrite <- (str_app_assoc a b).
  apply readlines_line. by rewrite line_ok_app, Ha, Hb.
Qed.

(** Reading back the six lines of a record gives its six token lists. *)
Lemma rows_record_text (pose : sp.StablePose F) (rest : string) :
  is_token (format_s (sp.id pose)) = true ->
  map split (readlines (record_text pose +:+ rest))
  = record_rows pose ++ map split (readlines rest).
Proof.
  intros Hid. unfold record_text, record_rows.
  destruct (sp.r pose) as [[[[a b] c] [[d e] f]] [[g h] i]].
  destruct (sp.x0 pose) as [[u v] w].
  rewrite !str_app_assoc.
  rewrite (readlines_line2 "p ") by first [reflexivity | by apply is_token_line_ok].
  rewrite (readlines_line2 "r ") by first [reflexivity | by apply format_3f_line_ok].
  rewrite (readlines_line2 "  ") by first [reflexivity | by apply format_3f_line_ok].
  rewrite (readlines_line2 "  ") by first [reflexivity | by apply format_3f_line_ok].
  rewrite (readlines_line2 "x0 ") by first [reflexivity | by apply format_3f_line_ok].
  rewrite (readlines_line2 "id ") by first [reflexivity | by apply is_token_line_ok].
  cbn [map app].
  rewrite !split_untagged_3f.
  rewrite (split_tagged "p" _ eq_refl (format_f_token (sp.p pose))
           : split (("p " +:+ _) +:+ nl) = _).
  rewrite (split_tagged_3f "r" a b c eq_refl
           : split (("r " +:+ _) +:+ nl) = _).
  rewrite (split_tagged_3f "x0" u v w eq_refl
           : split (("x0 " +:+ _) +:+ nl) = _).
  by rewrite (split_tagged "id" _ eq_refl Hid
              : split (("id " +:+ _) +:+ nl) = _).
Qed.

End WrittenRows.

(** ** Reading back a written text *)

Section RoundTrip.
Context {F : Type} `{PyFloatLaws F}.

Lemma float_of_format (x : F) : float_of_string (format_f x) = Some (reparse x).
Proof.
  unfold reparse. destruct (format_f_reparse x) as (y & -> & _). done.
Qed.

Lemma format_reparse (x : F) : format_f (reparse x) = format_f x.
Proof.
  unfold reparse. destruct (format_f_reparse x) as (y & -> & Hy). done.
Qed.

Lemma format_f_not_p (x : F) : String.eqb (format_f x) "p" = false.
Proof.
  apply eqb_neq. intros Hp. pose proof (float_of_format x) as Hx.
  rewrite Hp, float_of_p in Hx. discriminate.
Qed.

Lemma to_float_format (x : F) : to_float (format_f x) = Return (reparse x).
Proof. unfold to_float. by rewrite float_of_format. Qed.

Lemma read_body_head_not_p (row : list string) (rest : list (list string))
    (st : read_locals (F:=F)) :
  is_p_line row = false -> read_body (row :: rest) 0 st = Return st.
Proof. intros Hrow. by apply (read_body_not_p (row :: rest) 0 row). Qed.

Lemma read_suffix_skip (pre rows : list (list string)) (st : read_locals (F:=F)) :
  Forall (λ row, is_p_line row = false) pre ->
  read_suffix (pre ++ rows) st = read_suffix rows st.
Proof.
  induction 1 as [|row pre Hrow _ IH]; [done|].
  cbn [app read_suffix].
  by rewrite (read_body_head_not_p row _ st Hrow).
Qed.

(** The loop over the six rows of a written record appends the record
    read back and binds [identifier]. *)
Lemma read_suffix_record (pose : sp.StablePose F) (rest : list (list string))
    (st : read_locals (F:=F)) :
  read_suffix (record_rows pose ++ rest) st
  = read_suffix rest
      {| stable_poses := stable_poses st ++ [reparse_pose pose];
         identifier := Some (format_s (sp.id pose));
         stp_id := stp_id st |}.
Proof.
  unfold record_rows, reparse_pose.
  destruct (sp.r pose) as [[[[a b] c] [[d e] f]] [[g h] i]].
  destruct (sp.x0 pose) as [[u v] w].
  cbn [app read_suffix].
  assert (read_body
            (["p"; format_f (sp.p pose)]
             :: ["r"; format_f a; format_f b; format_f c]
             :: [format_f d; format_f e; format_f f]
             :: [format_f g; format_f h; format_f i]
             :: ["x0"; format_f u; format_f v; format_f w]
             :: ["id"; format_s (sp.id pose)] :: rest) 0 st
          = Return
              {| stable_poses :=
                   stable_poses st
                   ++ [sp.mk (reparse (sp.p pose))
                         ((reparse a, reparse b, reparse c),
                          (reparse d, reparse e, reparse f),
                          (reparse g, reparse h, reparse i))
                         (reparse u, reparse v, reparse w)
                         (IdStr (format_s (sp.id pose)))];
                 identifier := Some (format_s (sp.id pose));
                 stp_id := stp_id st |}) as ->.
  { unfold read_body, read_identifier, getitem2, getitem, astype_mat, astype_vec.
    cbn [lookup list_lookup Nat.add bind Return is_p_line String.eqb Ascii.eqb
         Bool.eqb stable_poses identifier stp_id].
    rewrite !to_float_format. done. }
  cbn [bind Return].
  rewrite read_body_head_not_p by done. cbn [bind Return].
  rewrite read_body_head_not_p by apply format_f_not_p. cbn [bind Return].
  rewrite read_body_head_not_p by apply format_f_not_p. cbn [bind Return].
  rewrite read_body_head_not_p by done. cbn [bind Return].
  rewrite read_body_head_not_p by done. done.
Qed.

Lemma read_suffix_records (poses : list (sp.StablePose F)) (rest : list (list string))
    (st : read_locals (F:=F)) :
  Forall (λ row, is_p_line row = false) rest ->
  exists st',
    read_suffix (flat_map record_rows poses ++ rest) st = Return st' /\
    stable_poses st' = stable_poses st ++ map reparse_pose poses.
Proof.
  intros Hrest. revert st. induction poses as [|pose poses IH]; intros st.
  - exists st. simpl. rewrite app_nil_r. split; [|done].
    rewrite <- (app_nil_r rest). by rewrite read_suffix_skip.
  - cbn [flat_map]. rewrite <- app_assoc, read_suffix_record.
    destruct (IH {| stable_poses := stable_poses st ++ [reparse_pose pose];
                    identifier := Some (format_s (sp.id pose));
                    stp_id := stp_id st |}) as (st' & Hread & Hposes).
    exists st'. split; [done|].
    rewrite Hposes. simpl. by rewrite <- app_assoc.
Qed.

End RoundTrip.

Section ReadLayout.
Context {F : Type} `{PyFloatLaws F}.

Lemma readlines_line4 (a b c d rest : string) :
  line_ok a = true -> line_ok b = true -> line_ok c = true -> line_ok d = true ->
  readlines (a +:+ b +:+ c +:+ d +:+ nl +:+ rest)
  = ((a +:+ b +:+ c +:+ d) +:+ nl) :: readlines rest.
Proof.
  intros Ha Hb Hc Hd. rewrite <- (readlines_line (a +:+ b +:+ c +:+ d)).
  - by rewrite !str_app_assoc.
  - by rewrite !line_ok_app, Ha, Hb, Hc, Hd.
Qed.

(** The banner and the blank line after it read back as eight rows, none
    of which starts a record. *)
Lemma rows_banner (n : nat) (P rest : string) :
  line_ok P = true ->
  exists hdr,
    map split (readlines (banner n P +:+ rest)) = hdr ++ map split (readlines rest) /\
    length hdr = 8 /\
    Forall (λ row, is_p_line row = false) hdr.
Proof.
  intros HP.
  unfold banner, border_line, attribution_line, blank_comment_line,
    num_poses_line, min_prob_line.
  rewrite !str_app_assoc.
  rewrite !(readlines_line "#############################################################")
    by done.
  rewrite !(readlines_line "# STP file generated by UC Berkeley Automation Sciences Lab #")
    by done.
  rewrite !(readlines_line "#                                                           #")
    by done.
  rewrite (readlines_line4 "# Num Poses: " (str_of_nat n))
    by first [reflexivity | apply str_of_nat_line_ok | apply spaces_line_ok].
  rewrite (readlines_line4 "# Min Probability: " P)
    by first [reflexivity | assumption | apply spaces_line_ok].
  rewrite !(readlines_line "#                                                           #")
    by done.
  rewrite !(readlines_line "#############################################################")
    by done.
  rewrite (readlines_line EmptyString rest eq_refl : readlines (nl +:+ rest) = _).
  eexists [_; _; _; _; _; _; _; _]. split; [reflexivity|]. split; [done|].
  repeat constructor; done.
Qed.

(** [read] on the text that [write] lays out returns the records read
    back, in order. *)
Lemma read_text_layout (kept : list (sp.StablePose F)) (P : string) :
  line_ok P = true ->
  Forall (λ pose, is_token (format_s (sp.id pose)) = true) kept ->
  read_text (stp_layout kept P) = Return (map reparse_pose kept).
Proof.
  intros HP Hids. unfold read_text, stp_layout.
  destruct (rows_banner (length kept) P
              (str_concat (map record_text kept) +:+ nl +:+ nl) HP)
    as (hdr & -> & _ & Hhdr).
  assert (map split (readlines (str_concat (map record_text kept) +:+ nl +:+ nl))
          = flat_map record_rows kept ++ [[]; []]) as ->.
  { induction Hids as [|pose kept Hid _ IH]; [done|].
    cbn [map str_concat foldr flat_map]. rewrite str_app_assoc.
    rewrite (rows_record_text format_f_is_token) by done.
    fold (str_concat (map record_text kept)). by rewrite IH, app_assoc. }
  rewrite read_data_suffix, read_suffix_skip by done.
  destruct (read_suffix_records kept [[]; []]
              {| stable_poses := []; identifier := None; stp_id := None |})
    as (st' & -> & Hposes); [by repeat constructor|].
  cbn [bind Return]. by rewrite Hposes.
Qed.

End ReadLayout.

(** ** The decimal model satisfies the laws of the float interface *)

Local Open Scope Z_scope.

Lemma digit_val_char (d : Z) : 0 <= d < 10 -> digit_val (digit_char d) = Some d.
Proof.
  intros Hd.
  assert (d = 0 \/ d = 1 \/ d = 2 \/ d = 3 \/ d = 4 \/ d = 5 \/ d = 6 \/ d = 7
          \/ d = 8 \/ d = 9) as Hcases by lia.
  repeat (destruct Hcases as [->|Hcases]; [reflexivity|]). by subst.
Qed.

Lemma digit_char_is_digit (d : Z) : is_digit (digit_char d) = true.
Proof. unfold digit_char. repeat case_match; reflexivity. Qed.

Lemma is_digit_plain (c : ascii) :
  is_digit c = true ->
  isspace c = false /\ Ascii.eqb c "-" = false /\ Ascii.eqb c "+" = false
  /\ Ascii.eqb c "." = false.
Proof. destruct c as [[] [] [] [] [] [] [] []]; (discriminate || done). Qed.

Lemma digits_go_forall (P : ascii -> bool) (fuel : nat) (n : Z) (acc : string) :
  (forall d, P (digit_char d) = true) -> str_forall P acc = true ->
  str_forall P (digits_go fuel n acc) = true.
Proof.
  intros HP. revert n acc. induction fuel as [|fuel IH]; intros n acc Hacc; [done|].
  simpl. destruct (n <? 10).
  - simpl. by rewrite HP.
  - apply IH. simpl. by rewrite HP.
Qed.

Lemma pad_digits_forall (P : ascii -> bool) (k : nat) (n : Z) (acc : string) :
  (forall d, P (digit_char d) = true) -> str_forall P acc = true ->
  str_forall P (pad_digits k n acc) = true.
Proof.
  intros HP. revert n acc. induction k as [|k IH]; intros n acc Hacc; [done|].
  simpl. apply IH. simpl. by rewrite HP.
Qed.

Lemma digits_go_length (fuel : nat) (n : Z) (acc : string) :
  (String.length acc <= String.length (digits_go fuel n acc))%nat.
Proof.
  revert n acc. induction fuel as [|fuel IH]; intros n acc; [done|].
  simpl. destruct (n <? 10); [simpl; lia|].
  etrans; [|apply IH]. simpl. lia.
Qed.

Lemma pad_digits_length (k : nat) (n : Z) (acc : string) :
  String.length (pad_digits k n acc) = (k + String.length acc)%nat.
Proof.
  revert n acc. induction k as [|k IH]; intros n acc; [done|].
  simpl. rewrite IH. simpl. lia.
Qed.

Lemma digits_go_S (fuel : nat) (n : Z) (acc : string) :
  digits_go (S fuel) n acc
  = if n <? 10 then String (digit_char (n mod 10)) acc
    else digits_go fuel (n / 10) (String (digit_char (n mod 10)) acc).
Proof. reflexivity. Qed.

Lemma parse_digits_go (fuel : nat) (n : Z) (acc : string) :
  0 <= n < 2 ^ Z.of_nat (S fuel) ->
  parse_digits (digits_go (S fuel) n acc) 0 = parse_digits acc n.
Proof.
  revert n acc. induction fuel as [|fuel IH]; intros n acc Hn.
  - change (2 ^ Z.of_nat 1) with 2 in Hn.
    assert ((n <? 10) = true) as Hlt by lia.
    rewrite digits_go_S, Hlt. simpl.
    rewrite Z.mod_small, digit_val_char by lia. done.
  - rewrite digits_go_S. destruct (n <? 10) eqn:Hlt.
    + simpl. rewrite Z.mod_small, digit_val_char by lia. done.
    + rewrite IH.
      * simpl. rewrite digit_val_char by (apply Z.mod_pos_bound; lia).
        f_equal. pose proof (Z.div_mod n 10). lia.
      * rewrite Nat2Z.inj_succ, Z.pow_succ_r in Hn by lia.
        split; [apply Z.div_pos; lia|].
        apply Z.div_lt_upper_bound; lia.
Qed.

Lemma parse_digits_digits (n : Z) : 0 <= n -> parse_digits (digits n) 0 = Some n.
Proof.
  intros Hn. unfold digits. rewrite parse_digits_go; [done|].
  split; [done|].
  destruct (decide (n = 0)) as [->|Hne]; [done|].
  rewrite Nat2Z.inj_succ, Z2Nat.id by apply Z.log2_nonneg.
  apply Z.log2_spec. lia.
Qed.

Lemma parse_digits_pad (k : nat) (n a : Z) (acc : string) :
  0 <= n < 10 ^ Z.of_nat k ->
  parse_digits (pad_digits k n acc) a = parse_digits acc (a * 10 ^ Z.of_nat k + n).
Proof.
  revert n acc. induction k as [|k IH]; intros n acc Hn.
  - simpl in *. f_equal. lia.
  - rewrite Nat2Z.inj_succ, Z.pow_succ_r in * by lia.
    simpl. rewrite IH.
    + simpl. rewrite digit_val_char by (apply Z.mod_pos_bound; lia).
      f_equal. pose proof (Z.div_mod n 10). lia.
    + split; [apply Z.div_pos; lia|]. apply Z.div_lt_upper_bound; lia.
Qed.

Lemma split_dot_digits (a b : string) :
  str_forall is_digit a = true -> split_dot (a +:+ "." +:+ b) = (a, Some b).
Proof.
  induction a as [|c a IH]; intros Ha; [done|].
  simpl in Ha. apply andb_true_iff in Ha as [Hc Ha].
  rewrite str_app_cons. simpl.
  destruct (is_digit_plain c Hc) as (_ & _ & _ & ->). by rewrite (IH Ha).
Qed.

Lemma digits_is_digit (n : Z) : str_forall is_digit (digits n) = true.
Proof. apply digits_go_forall; [apply digit_char_is_digit|done]. Qed.

Lemma pad_is_digit (k : nat) (n : Z) : str_forall is_digit (pad_digits k n EmptyString) = true.
Proof. apply pad_digits_forall; [apply digit_char_is_digit|done]. Qed.

Lemma digits_head (n : Z) :
  exists c s, digits n = String c s /\ is_digit c = true.
Proof.
  pose proof (digits_is_digit n) as Hall. unfold digits in *.
  rewrite digits_go_S in *.
  destruct (n <? 10).
  - simpl in Hall. apply andb_true_iff in Hall as [Hc _]. eauto.
  - pose proof (digits_go_length (Z.to_nat (Z.log2 n)) (n / 10)
                  (String (digit_char (n mod 10)) EmptyString)) as Hlen.
    destruct (digits_go _ _ _) as [|c s]; [simpl in Hlen; lia|].
    simpl in Hall. apply andb_true_iff in Hall as [Hc _]. eauto.
Qed.

Lemma str_forall_impl (P Q : ascii -> bool) (s : string) :
  (forall c, P c = true -> Q c = true) ->
  str_forall P s = true -> str_forall Q s = true.
Proof.
  intros HPQ. induction s as [|c s IH]; [done|]. simpl.
  intros [Hc Hs]%andb_true_iff. by rewrite (HPQ c Hc), (IH Hs).
Qed.

Lemma digits_no_space (s : string) : str_forall is_digit s = true -> no_space s = true.
Proof.
  apply str_forall_impl. intros c Hc.
  destruct (is_digit_plain c Hc) as (-> & _). done.
Qed.

(** Integer part, point and six digits read back as the number they print. *)
Lemma parse_unsigned_format (ip fp : Z) :
  0 <= ip -> 0 <= fp < 1000000 ->
  parse_unsigned (digits ip +:+ "." +:+ pad_digits 6 fp EmptyString) = Some (ip * 1000000 + fp).
Proof.
  intros Hip Hfp. unfold parse_unsigned.
  rewrite split_dot_digits by apply digits_is_digit.
  change (default EmptyString (Some (pad_digits 6 fp EmptyString))) with (pad_digits 6 fp EmptyString).
  rewrite pad_digits_length.
  destruct (_ =? 0)%nat eqn:Hlen; [apply Nat.eqb_eq in Hlen; simpl in Hlen; lia|].
  rewrite parse_digits_digits by done.
  rewrite (parse_digits_pad 6 fp 0 EmptyString) by (simpl; lia).
  cbn [parse_digits]. unfold scale_fraction. simpl. f_equal. lia.
Qed.

(** [float] inverts ["%f"] on every number of the model. *)
Lemma dec6_of_format (x : dec6) : dec6_of_string (dec6_format x) = Some x.
Proof.
  destruct x as [m]. unfold dec6_format. cbn [micro].
  pose proof (Z.div_mod (Z.abs m) 1000000 ltac:(lia)) as Hdm.
  pose proof (Z.mod_pos_bound (Z.abs m) 1000000 ltac:(lia)) as Hmod.
  assert (0 <= Z.abs m / 1000000) as Hdiv by (apply Z.div_pos; lia).
  destruct (Z.ltb_spec m 0) as [Hneg|Hneg].
  - change ("-" +:+ ?s) with (String "-" s). cbn [dec6_of_string Ascii.eqb Bool.eqb].
    rewrite parse_unsigned_format by lia. cbn [fmap option_fmap option_map].
    f_equal. f_equal. lia.
  - rewrite str_app_nil_l.
    destruct (digits_head (Z.abs m / 1000000)) as (c & s & Hhead & Hc).
    pose proof (parse_unsigned_format (Z.abs m / 1000000) (Z.abs m mod 1000000)) as Hparse.
    rewrite Hhead in *. rewrite str_app_cons in *.
    destruct (is_digit_plain c Hc) as (_ & Hminus & Hplus & _).
    unfold dec6_of_string. rewrite Hminus, Hplus, Hparse by lia.
    cbn [fmap option_fmap option_map]. f_equal. f_equal. lia.
Qed.

Lemma dec6_format_token (x : dec6) : is_token (dec6_format x) = true.
Proof.
  unfold is_token. apply andb_true_iff. split.
  - apply negb_true_iff, eqb_neq. intros Hempty.
    pose proof (dec6_of_format x) as Hparse. by rewrite Hempty in Hparse.
  - unfold dec6_format, no_space. rewrite !str_forall_app.
    fold (no_space (digits (Z.abs (micro x) / 1000000))).
    fold (no_space (pad_digits 6 (Z.abs (micro x) mod 1000000) EmptyString)).
    rewrite (digits_no_space (digits _)) by apply digits_is_digit.
    rewrite (digits_no_space (pad_digits _ _ _)) by apply pad_is_digit.
    by destruct (micro x <? 0).
Qed.

#[export] Instance dec6_laws : PyFloatLaws dec6.
Proof.
  split.
  - apply dec6_format_token.
  - intros x. exists x. split; [apply dec6_of_format|done].
  - reflexivity.
Qed.

(** ** Six decimals *)

Lemma fixed6_parts (whole frac : string) :
  whole <> EmptyString ->
  str_forall is_digit whole = true -> str_forall is_digit frac = true ->
  String.length frac = 6%nat ->
  fixed6 (whole +:+ "." +:+ frac) = true /\
  fixed6 (String "-" (whole +:+ "." +:+ frac)) = true.
Proof.
  intros Hne Hwhole Hfrac Hlen.
  assert (match split_dot (whole +:+ "." +:+ frac) with
          | (w, Some f) =>
              negb (String.eqb w EmptyString) && str_forall is_digit w
              && str_forall is_digit f && (String.length f =? 6)%nat
          | (_, None) => false
          end = true) as Hbody.
  { rewrite split_dot_digits by done. rewrite Hwhole, Hfrac, Hlen.
    destruct whole; [done|reflexivity]. }
  split; [|exact Hbody].
  destruct whole as [|c w]; [done|].
  pose proof Hwhole as Hc. simpl in Hc. apply andb_true_iff in Hc as [Hc _].
  destruct (is_digit_plain c Hc) as (_ & Hminus & _).
  rewrite str_app_cons in *. unfold fixed6. by rewrite Hminus.
Qed.

(** ["%f"] of the decimal model prints six decimals. *)
Lemma dec6_format_fixed6 (x : dec6) : fixed6 (dec6_format x) = true.
Proof.
  destruct x as [m]. unfold dec6_format. cbn [micro].
  destruct (digits_head (Z.abs m / 1000000)) as (c & s & Hhead & _).
  destruct (fixed6_parts (digits (Z.abs m / 1000000))
              (pad_digits 6 (Z.abs m mod 1000000) EmptyString)) as [Hplus Hminus].
  - by rewrite Hhead.
  - apply digits_is_digit.
  - apply pad_is_digit.
  - by rewrite pad_digits_length.
  - destruct (m <? 0).
    + exact Hminus.
    + by rewrite str_app_nil_l.
Qed.

(** In the model with [inf] and [nan], ["%f"] prints six decimals for the
    finite numbers and for no other. *)
Lemma float6_format_fixed6 (x : float6) :
  fixed6 (format_f x) = true <-> exists d : dec6, x = Finite d.
Proof.
  split.
  - destruct x as [d|[]|]; [by exists d|discriminate..].
  - intros [d ->]. apply dec6_format_fixed6.
Qed.

Local Open Scope nat_scope.

(** ** Which paths have the extension [".stp"] *)

Local Open Scope Z_scope.

Lemma rfind_from_app (c : ascii) (a b : string) (i last : Z) :
  rfind_from c (a +:+ b) i last
  = rfind_from c b (i + Z.of_nat (String.length a)) (rfind_from c a i last).
Proof.
  revert i last. induction a as [|x a IH]; intros i last.
  - rewrite str_app_nil_l. simpl. f_equal. lia.
  - rewrite str_app_cons. simpl. rewrite IH. f_equal. lia.
Qed.

Lemma rfind_from_bounds (c : ascii) (s : string) (i last : Z) :
  rfind_from c s i last = last \/
  i <= rfind_from c s i last < i + Z.of_nat (String.length s).
Proof.
  revert i last. induction s as [|x s IH]; intros i last; [by left|].
  simpl. destruct (IH (i + 1) (if Ascii.eqb x c then i else last)) as [->|Hin].
  - destruct (Ascii.eqb x c); [right; lia | by left].
  - right. lia.
Qed.

Lemma rfind_bounds (c : ascii) (s : string) :
  -1 <= rfind c s < Z.of_nat (String.length s).
Proof. unfold rfind. destruct (rfind_from_bounds c s 0 (-1)) as [->|?]; lia. Qed.

Lemma str_drop_app_length (a b : string) : str_drop (String.length a) (a +:+ b) = b.
Proof. induction a as [|x a IH]; [by destruct b|]. by rewrite str_app_cons. Qed.

Lemma char_slice_app (j : Z) (a b : string) :
  0 <= j < Z.of_nat (String.length a) -> char_slice j (a +:+ b) = char_slice j a.
Proof.
  intros Hj. unfold char_slice. destruct (j <? 0); [done|].
  assert (Z.to_nat j < String.length a)%nat as Hlt by lia.
  revert Hlt. generalize (Z.to_nat j). clear Hj. intros n. revert n.
  induction a as [|x a IH]; intros n Hlt; [simpl in Hlt; lia|].
  rewrite str_app_cons. destruct n as [|n]; [done|].
  simpl in *. apply IH. lia.
Qed.

(** The loop of [splitext] cuts at the dot as soon as it meets a character
    that is no dot, and otherwise leaves the path whole. *)
Lemma splitext_loop_cases (p : string) (dotIndex k : Z) (n : nat) :
  (splitext_loop p dotIndex k n = (p, EmptyString) /\
   forall j, k <= j < k + Z.of_nat n -> char_slice j p = ".") \/
  (splitext_loop p dotIndex k n
   = (str_take (Z.to_nat dotIndex) p, str_drop (Z.to_nat dotIndex) p) /\
   exists j, k <= j < k + Z.of_nat n /\ char_slice j p <> ".").
Proof.
  revert k. induction n as [|n IH]; intros k.
  - left. split; [done|]. intros j Hj. lia.
  - simpl. destruct (String.eqb_spec (char_slice k p) ".") as [Hdot|Hdot]; simpl.
    + destruct (IH (k + 1)) as [[-> Hall]|[-> (j & Hj & Hne)]].
      * left. split; [done|]. intros j Hj.
        destruct (decide (j = k)) as [->|Hne]; [done|]. apply Hall. lia.
      * right. split; [done|]. exists j. split; [lia|done].
    + right. split; [done|]. exists k. split; [lia|done].
Qed.

Lemma rfind_slash_stp (root : string) : rfind "/" (root +:+ ".stp") = rfind "/" root.
Proof. unfold rfind. by rewrite rfind_from_app. Qed.

Lemma rfind_dot_stp (root : string) :
  rfind "." (root +:+ ".stp") = Z.of_nat (String.length root).
Proof. unfold rfind. rewrite rfind_from_app. cbn. lia. Qed.

Lemma splitext_stp_suffix (root : string) :
  splitext (root +:+ ".stp")
  = splitext_loop (root +:+ ".stp") (Z.of_nat (String.length root))
      (rfind "/" root + 1)
      (Z.to_nat (Z.of_nat (String.length root) - (rfind "/" root + 1))).
Proof.
  unfold splitext. rewrite rfind_slash_stp, rfind_dot_stp.
  pose proof (rfind_bounds "/" root) as Hsep.
  by destruct (Z.ltb_spec (rfind "/" root) (Z.of_nat (String.length root))); [|lia].
Qed.

(** The extension is [".stp"] exactly for the paths [root ++ ".stp"] whose
    file name is more than dots before the suffix. *)
Lemma splitext_stp_iff (path : string) :
  (splitext path).2 = ".stp" <-> exists root, path = root +:+ ".stp" /\ has_stem root.
Proof.
  split.
  - intros Hext. exists (splitext path).1.
    assert (path = (splitext path).1 +:+ ".stp") as Hpath
      by (by rewrite <- Hext, splitext_join).
    split; [done|]. revert Hext. rewrite Hpath at 1.
    generalize (splitext path).1. clear Hpath. intros root.
    rewrite splitext_stp_suffix.
    pose proof (rfind_bounds "/" root) as Hsep.
    destruct (splitext_loop_cases (root +:+ ".stp") (Z.of_nat (String.length root))
                (rfind "/" root + 1)
                (Z.to_nat (Z.of_nat (String.length root) - (rfind "/" root + 1))))
      as [[-> _]|[_ (j & Hj & Hne)]]; [done|].
    intros _. exists j. split; [lia|].
    by rewrite <- (char_slice_app j root ".stp") by lia.
  - intros (root & -> & j & Hj & Hne).
    rewrite splitext_stp_suffix.
    pose proof (rfind_bounds "/" root) as Hsep.
    destruct (splitext_loop_cases (root +:+ ".stp") (Z.of_nat (String.length root))
                (rfind "/" root + 1)
                (Z.to_nat (Z.of_nat (String.length root) - (rfind "/" root + 1))))
      as [[_ Hall]|[-> _]].
    + exfalso. apply Hne. rewrite <- (char_slice_app j root ".stp") by lia.
      apply Hall. lia.
    + cbn [snd]. rewrite Nat2Z.id. apply str_drop_app_length.
Qed.

(** Case matters, a longer suffix is another extension, and a file name that
    is only the suffix has no extension. *)
Lemma splitext_examples :
  splitext "meshes/part.stp" = ("meshes/part", ".stp") /\
  splitext "part.STP" = ("part", ".STP") /\
  splitext "part.stp.bak" = ("part.stp", ".bak") /\
  splitext "part.stpx" = ("part", ".stpx") /\
  splitext "partstp" = ("partstp", EmptyString) /\
  splitext "meshes/.stp" = ("meshes/.stp", EmptyString).
Proof. repeat split; reflexivity. Qed.

Local Open Scope nat_scope.

(** * The claims *)

(** ** C4: the constructor checks the extension and touches no file *)

(** C4. For every path, the constructor raises (a [ValueError], the spec's
    InvalidExtension) exactly when the extension that [splitext] finds is not
    the literal [".stp"], compared character by character; with extension
    [".stp"] it returns the codec for that path.  The extension is [".stp"]
    exactly when the path is some [root] followed by [".stp"] and the file
    name in [root] is more than dots.  Either way the file system is left as
    it was and plays no part in the outcome, so the file need not exist. *)
Theorem C4_init_raises_iff_extension_differs (path : string) (fs : FS) :
  (raises (init path fs).1 <-> (splitext path).2 <> ".stp") /\
  ((splitext path).2 <> ".stp" ->
   (init path fs).1
   = Raise (ValueError ("Extension " +:+ (splitext path).2 +:+ " invalid for STPs"))) /\
  ((splitext path).2 = ".stp" -> (init path fs).1 = Return {| filepath_ := path |}) /\
  ((splitext path).2 = ".stp" <->
   exists root, path = root +:+ ".stp" /\ has_stem root) /\
  (init path fs).2 = fs /\
  (init path fs).1 = (init path ∅).1.
Proof.
  split; [|split; [|split; [|split; [apply splitext_stp_iff|]]]];
    destruct (decide ((splitext path).2 = ".stp")) as [Hext|Hext].
  - rewrite (init_accepts path _ Hext). cbn [fst raises Return]. by split.
  - rewrite (init_rejects path _ Hext). cbn [fst raises Raise]. by split.
  - done.
  - intros _. by rewrite (init_rejects path _ Hext).
  - intros _. by rewrite (init_accepts path _ Hext).
  - done.
  - by rewrite !(init_accepts path _ Hext).
  - by rewrite !(init_rejects path _ Hext).
Qed.

(** ** C10: [write] opens the path the constructor accepted *)

Section WriteIO.
Context {F : Type} `{PyFloat F}.

(** Once the file is open, [write] stores the laid out text at [write_path]
    and returns. *)
Lemma write_stores_layout (self : StablePoseFile) (recs : list (sp.StablePose F))
    (min_prob : number F) (fs : FS) :
  write self recs min_prob fs
  = (Return tt,
     <[write_path self := stp_layout (retained recs min_prob) (str_number min_prob)]> fs).
Proof. unfold write. by rewrite write_text_layout. Qed.

End WriteIO.

(** C10. For a path that the constructor accepts, the stored path ends in
    [".stp"], the path that [write] derives from it (the stored path without
    its last four characters, plus [".stp"]) is the stored path itself, and so
    [write] puts its text in the file at the stored path. *)
Theorem C10_write_path_is_stored_path (path : string) (fs fs' : FS)
    (self : StablePoseFile) :
  init path fs = (Return self, fs') ->
  filepath_ self = path /\
  (exists root, filepath_ self = root +:+ ".stp") /\
  write_path self = filepath_ self /\
  forall (F : Type) (ops : PyFloat F) (recs : list (sp.StablePose F))
         (min_prob : number F) (fs0 : FS),
  exists text,
    write self recs min_prob fs0 = (Return tt, <[filepath_ self := text]> fs0).
Proof.
  intros Hinit.
  pose proof (write_path_accepted _ _ _ _ Hinit) as Hpath.
  pose proof (accepted_suffix _ _ _ _ Hinit) as Hsuffix.
  destruct (init_inv _ _ _ _ Hinit) as (_ & -> & _). cbn [filepath_] in *.
  split; [done|]. split; [by exists (splitext path).1|]. split; [done|].
  intros F ops recs min_prob fs0. eexists.
  rewrite write_stores_layout. by rewrite Hpath.
Qed.

(** C10 at the path [meshes/part.stp]. *)
Lemma C10_witness :
  init "meshes/part.stp" ∅ = (Return {| filepath_ := "meshes/part.stp" |}, ∅) /\
  write_path {| filepath_ := "meshes/part.stp" |} = "meshes/part.stp".
Proof.
  split; [reflexivity|].
  apply (C10_write_path_is_stored_path "meshes/part.stp" ∅ ∅
           {| filepath_ := "meshes/part.stp" |}).
  reflexivity.
Defined.

(** ** C8, C3, C6: what [write] writes *)

Section WriteClaims.
Context {F : Type} `{PyFloat F}.

Lemma retained_sublist (recs : list (sp.StablePose F)) (min_prob : number F) :
  sublist (retained recs min_prob) recs.
Proof.
  unfold retained. induction recs as [|pose recs IH]; simpl; [constructor|].
  destruct (ge_min_prob (sp.p pose) min_prob); by constructor.
Qed.

(** The six lines of a record, number by number. *)
Lemma record_text_six_lines (pose : sp.StablePose F) :
  record_text pose = six_lines pose.
Proof.
  unfold record_text, six_lines, format_3f.
  destruct (sp.r pose) as [[[[r00 r01] r02] [[r10 r11] r12]] [[r20 r21] r22]].
  destruct (sp.x0 pose) as [[t0 t1] t2].
  by rewrite !str_app_assoc.
Qed.

(** C8, amended. For every record list and threshold, [write] returns and
    the file it leaves at its output path is exactly: the border line, the
    attribution line, the blank comment line, the line ["# Num Poses: N"]
    padded with 46 minus the length of [N] spaces before [" #"], the line
    ["# Min Probability: P"] padded with 40 minus the length of [P] spaces
    before [" #"], the blank comment line, the border line, a blank line; then
    for each retained record, in order, the six lines [p %f], [r %f %f %f],
    two triplets [%f %f %f] after two spaces, [x0 %f %f %f], [id %s]; then
    two blank lines.  [N] is the number of retained records in decimal, [P] is
    [str(min_prob)], and each of the thirteen numbers of a record is printed
    by ["%f"].  What ["%f"] prints has six digits after the point exactly when
    the number is finite: in the model that has them, [inf] and [nan] are
    printed as words. *)
Theorem C8_write_fixed_layout (self : StablePoseFile) (recs : list (sp.StablePose F))
    (min_prob : number F) (fs : FS) :
  let kept := List.filter (λ pose, ge_min_prob (sp.p pose) min_prob) recs in
  let N := str_of_nat (length kept) in
  let P := str_number min_prob in
  ((write self recs min_prob fs).1 = Return tt /\
   (write self recs min_prob fs).2 !! write_path self
   = Some
       (("#############################################################" +:+ nl)
        +:+ ("# STP file generated by UC Berkeley Automation Sciences Lab #" +:+ nl)
        +:+ ("#                                                           #" +:+ nl)
        +:+ ("# Num Poses: " +:+ N +:+ spaces (46 - String.length N) +:+ " #" +:+ nl)
        +:+ ("# Min Probability: " +:+ P +:+ spaces (40 - String.length P) +:+ " #" +:+ nl)
        +:+ ("#                                                           #" +:+ nl)
        +:+ ("#############################################################" +:+ nl)
        +:+ nl
        +:+ str_concat
              (map (λ pose,
                      match sp.r pose, sp.x0 pose with
                      | ((r00, r01, r02), (r10, r11, r12), (r20, r21, r22)),
                        (t0, t1, t2) =>
                          ("p " +:+ format_f (sp.p pose) +:+ nl)
                          +:+ ("r " +:+ format_f r00 +:+ " " +:+ format_f r01
                                 +:+ " " +:+ format_f r02 +:+ nl)
                          +:+ ("  " +:+ format_f r10 +:+ " " +:+ format_f r11
                                 +:+ " " +:+ format_f r12 +:+ nl)
                          +:+ ("  " +:+ format_f r20 +:+ " " +:+ format_f r21
                                 +:+ " " +:+ format_f r22 +:+ nl)
                          +:+ ("x0 " +:+ format_f t0 +:+ " " +:+ format_f t1
                                 +:+ " " +:+ format_f t2 +:+ nl)
                          +:+ ("id " +:+ format_s (sp.id pose) +:+ nl)
                      end)
                   kept)
        +:+ nl +:+ nl)) /\
  (forall x : float6, fixed6 (format_f x) = true <-> exists d : dec6, x = Finite d).
Proof.
  intros kept N P. split; [|apply float6_format_fixed6].
  rewrite write_stores_layout. cbn [fst snd].
  split; [done|]. rewrite lookup_insert_eq. f_equal.
  unfold stp_layout, banner, border_line, attribution_line, blank_comment_line,
    num_poses_line, min_prob_line.
  change (retained recs min_prob) with kept. fold N P.
  rewrite (map_ext record_text six_lines record_text_six_lines).
  change (map six_lines kept) with
    (map (λ pose : sp.StablePose F,
            match sp.r pose, sp.x0 pose with
            | ((r00, r01, r02), (r10, r11, r12), (r20, r21, r22)), (t0, t1, t2) =>
                ("p " +:+ format_f (sp.p pose) +:+ nl)
                +:+ ("r " +:+ format_f r00 +:+ " " +:+ format_f r01
                       +:+ " " +:+ format_f r02 +:+ nl)
                +:+ ("  " +:+ format_f r10 +:+ " " +:+ format_f r11
                       +:+ " " +:+ format_f r12 +:+ nl)
                +:+ ("  " +:+ format_f r20 +:+ " " +:+ format_f r21
                       +:+ " " +:+ format_f r22 +:+ nl)
                +:+ ("x0 " +:+ format_f t0 +:+ " " +:+ format_f t1
                       +:+ " " +:+ format_f t2 +:+ nl)
                +:+ ("id " +:+ format_s (sp.id pose) +:+ nl)
            end) kept).
  by rewrite !str_app_assoc.
Qed.

(** C3. For every record list and threshold [X], the records whose blocks
    [write] puts in the file, between the banner and the two closing blank
    lines, are exactly those with probability [>= X], in the order of the
    input list; the banner counts them; a record with probability below [X]
    has no block. *)
Theorem C3_write_keeps_exactly_the_poses_above_threshold (self : StablePoseFile)
    (recs : list (sp.StablePose F)) (X : number F) (fs : FS) :
  exists kept,
    (write self recs X fs).2 !! write_path self
    = Some (banner (length kept) (str_number X)
            +:+ str_concat (map record_text kept) +:+ nl +:+ nl) /\
    kept = List.filter (λ pose, ge_min_prob (sp.p pose) X) recs /\
    sublist kept recs /\
    (forall pose, In pose kept <-> In pose recs /\ ge_min_prob (sp.p pose) X = true).
Proof.
  exists (retained recs X).
  rewrite write_stores_layout. cbn [snd]. rewrite lookup_insert_eq.
  split; [done|]. split; [done|]. split; [apply retained_sublist|].
  intros pose. unfold retained. apply filter_In.
Qed.

End WriteClaims.

(** C8 as stated fails on a float that is no finite number.  [write] with
    threshold 0 on the one record [unbounded_pose], whose translation is
    [(inf, -inf, nan)], leaves the file [unbounded_pose_file]: its translation
    line is ["x0 inf -inf nan"], three numbers printed by ["%f"] without a
    point and without six digits after it. *)
Lemma C8_counterexample :
  write {| filepath_ := "poses.stp" |} [unbounded_pose] (Int 0) ∅
  = (Return tt, {[ "poses.stp" := unbounded_pose_file ]}) /\
  readlines unbounded_pose_file !! 12 = Some ("x0 inf -inf nan" +:+ nl) /\
  map (λ x : float6, format_f x) [Infinite false; Infinite true; NaN]
  = ["inf"; "-inf"; "nan"] /\
  map fixed6 ["inf"; "-inf"; "nan"] = [false; false; false].
Proof.
  split; [|split; [|split]]; [|reflexivity..].
  rewrite write_stores_layout.
  change (write_path {| filepath_ := "poses.stp" |}) with "poses.stp".
  assert (stp_layout (retained [unbounded_pose] (Int 0)) (str_number (F:=float6) (Int 0))
          = unbounded_pose_file) as -> by (vm_compute; reflexivity).
  by rewrite insert_empty.
Qed.

(** ** C5, C6, C9: what [read] returns *)

Section ReadClaims.
Context {F : Type} `{PyFloat F}.

Lemma read_found (self : StablePoseFile) (fs : FS) (text : string) :
  fs !! filepath_ self = Some text ->
  read (F:=F) self fs = (read_text text, fs).
Proof. intros Hfile. unfold read. by rewrite Hfile. Qed.

(** A returned list says which rows start a record and what each block
    holds. *)
Lemma read_returns_blocks (self : StablePoseFile) (fs : FS) (text : string)
    (recs : list (sp.StablePose F)) :
  fs !! filepath_ self = Some text ->
  (read self fs).1 = Return recs ->
  Forall2 (record_at (map split (readlines text)))
    (p_lines (map split (readlines text))) recs.
Proof.
  intros Hfile Hread. rewrite (read_found _ _ _ Hfile) in Hread.
  by apply read_data_inv.
Qed.

(** C5. When [read] returns, the record it returns for the [k]-th row [i]
    whose first token is ["p"] has its probability from token 1 of row [i],
    row 0 of its rotation from tokens 1..3 of row [i+1], rows 1 and 2 from
    tokens 0..2 of rows [i+2] and [i+3], and its translation from tokens 1..3 of
    row [i+4]. *)
Theorem C5_block_token_positions (self : StablePoseFile) (fs : FS) (text : string)
    (recs : list (sp.StablePose F)) (k i : nat) :
  fs !! filepath_ self = Some text ->
  (read self fs).1 = Return recs ->
  p_lines (map split (readlines text)) !! k = Some i ->
  exists rec,
    recs !! k = Some rec /\
    float_at (map split (readlines text)) i 1 = Some (sp.p rec) /\
    vec_at (map split (readlines text)) (i + 1) 1 = Some (sp.r rec).1.1 /\
    vec_at (map split (readlines text)) (i + 2) 0 = Some (sp.r rec).1.2 /\
    vec_at (map split (readlines text)) (i + 3) 0 = Some (sp.r rec).2 /\
    vec_at (map split (readlines text)) (i + 4) 1 = Some (sp.x0 rec).
Proof.
  intros Hfile Hread Hk.
  pose proof (read_returns_blocks _ _ _ _ Hfile Hread) as Hall.
  destruct (Forall2_lookup_l _ _ _ _ _ Hall Hk) as (rec & Hrec & Hblock).
  exists rec. split; [done|].
  unfold record_at, block_fields in Hblock.
  destruct (float_at _ i 1) as [p|]; [|done].
  destruct (vec_at _ (i + 1) 1) as [r0|]; [|done].
  destruct (vec_at _ (i + 2) 0) as [r1|]; [|done].
  destruct (vec_at _ (i + 3) 0) as [r2|]; [|done].
  destruct (vec_at _ (i + 4) 1) as [x0|]; [|done].
  simpl in Hblock. injection Hblock as -> <- ->. done.
Qed.

(** C6. In the list that [read] returns, the [k]-th record is the one of the
    [k]-th row that starts with ["p"], counting rows down the file.  The file
    that [write] leaves holds, after the banner, the six lines of each record
    of its input that passes the threshold, and of no other: the [k]-th such
    record of the input list has its six lines after those of the [k] before
    it and before those of the ones after it.  Nothing is sorted. *)
Theorem C6_records_keep_their_order :
  (forall (self : StablePoseFile) (fs : FS) (text : string)
          (recs : list (sp.StablePose F)),
     fs !! filepath_ self = Some text ->
     (read self fs).1 = Return recs ->
     StronglySorted lt (p_lines (map split (readlines text))) /\
     Forall2 (record_at (map split (readlines text)))
       (p_lines (map split (readlines text))) recs) /\
  (forall (self : StablePoseFile) (recs : list (sp.StablePose F))
          (min_prob : number F) (fs : FS),
     exists kept,
       kept = List.filter (λ pose, ge_min_prob (sp.p pose) min_prob) recs /\
       sublist kept recs /\
       (write self recs min_prob fs).2 !! write_path self
       = Some (banner (length kept) (str_number min_prob)
               +:+ str_concat (map six_lines kept) +:+ nl +:+ nl) /\
       forall (k : nat) (pose : sp.StablePose F),
         kept !! k = Some pose ->
         (write self recs min_prob fs).2 !! write_path self
         = Some ((banner (length kept) (str_number min_prob)
                  +:+ str_concat (map six_lines (take k kept)))
                 +:+ six_lines pose
                 +:+ (str_concat (map six_lines (drop (S k) kept)) +:+ nl +:+ nl))).
Proof.
  split.
  - intros self fs text recs Hfile Hread.
    split; [apply p_lines_sorted|].
    by apply (read_returns_blocks self fs).
  - intros self recs min_prob fs.
    exists (retained recs min_prob).
    assert ((write self recs min_prob fs).2 !! write_path self
            = Some (banner (length (retained recs min_prob)) (str_number min_prob)
                    +:+ str_concat (map six_lines (retained recs min_prob))
                    +:+ nl +:+ nl)) as Hfile.
    { rewrite write_stores_layout. cbn [snd]. rewrite lookup_insert_eq.
      unfold stp_layout.
      by rewrite (map_ext record_text six_lines record_text_six_lines). }
    split; [done|]. split; [apply retained_sublist|]. split; [exact Hfile|].
    intros k pose Hk. rewrite Hfile. f_equal.
    rewrite <- (take_drop_middle _ _ _ Hk) at 2.
    rewrite map_app, str_concat_app. cbn [map str_concat foldr].
    fold (str_concat (map six_lines (drop (S k) (retained recs min_prob)))).
    by rewrite !str_app_assoc.
Qed.

(** C9. When [read] returns, its list has one record per row whose first
    token is ["p"]; on an empty file it returns the empty list; and after
    [write([], 0)] on an accepted codec, [read] returns the empty list from a
    file that starts with the banner for zero poses. *)
Theorem C9_read_length_counts_p_rows :
  (forall (self : StablePoseFile) (fs : FS) (text : string)
          (recs : list (sp.StablePose F)),
     fs !! filepath_ self = Some text ->
     (read self fs).1 = Return recs ->
     length recs = length (List.filter is_p_line (map split (readlines text)))) /\
  (forall (self : StablePoseFile) (fs : FS),
     fs !! filepath_ self = Some EmptyString ->
     read (F:=F) self fs = (Return [], fs)) /\
  (forall (path : string) (fs fs' : FS) (self : StablePoseFile),
     init path fs = (Return self, fs') ->
     (write (F:=F) self [] (Int 0) fs).1 = Return tt /\
     (read (F:=F) self (write (F:=F) self [] (Int 0) fs).2).1 = Return [] /\
     exists rest,
       (write (F:=F) self [] (Int 0) fs).2 !! filepath_ self
       = Some (banner 0 "0" +:+ rest)).
Proof.
  split; [|split].
  - intros self fs text recs Hfile Hread.
    pose proof (read_returns_blocks _ _ _ _ Hfile Hread) as Hall.
    apply Forall2_length in Hall. rewrite <- Hall.
    apply p_lines_from_length.
  - intros self fs Hfile. by rewrite (read_found _ _ _ Hfile).
  - intros path fs fs' self Hinit.
    pose proof (write_path_accepted _ _ _ _ Hinit) as Hpath.
    rewrite write_stores_layout, Hpath. cbn [fst snd].
    split; [done|]. split.
    + erewrite read_found by apply lookup_insert_eq. cbn [fst].
      vm_compute. reflexivity.
    + rewrite lookup_insert_eq. by eexists.
Qed.

End ReadClaims.

(** C5 on a file with one complete record, in the decimal model. *)
Lemma C5_witness :
  ({[ "poses.stp" := one_record ]} : FS) !! "poses.stp" = Some one_record /\
  (read (F:=dec6) {| filepath_ := "poses.stp" |} {[ "poses.stp" := one_record ]}).1
  = Return [example_pose 500000 "7"] /\
  p_lines (map split (readlines one_record)) !! 0 = Some 0 /\
  exists rec,
    [example_pose 500000 "7"] !! 0 = Some rec /\
    float_at (map split (readlines one_record)) 0 1 = Some (sp.p rec) /\
    vec_at (map split (readlines one_record)) (0 + 1) 1 = Some (sp.r rec).1.1 /\
    vec_at (map split (readlines one_record)) (0 + 2) 0 = Some (sp.r rec).1.2 /\
    vec_at (map split (readlines one_record)) (0 + 3) 0 = Some (sp.r rec).2 /\
    vec_at (map split (readlines one_record)) (0 + 4) 1 = Some (sp.x0 rec).
Proof.
  assert (({[ "poses.stp" := one_record ]} : FS) !! "poses.stp" = Some one_record)
    as Hfile by apply lookup_singleton_eq.
  assert ((read (F:=dec6) {| filepath_ := "poses.stp" |}
             {[ "poses.stp" := one_record ]}).1
          = Return [example_pose 500000 "7"]) as Hread.
  { rewrite (read_found {| filepath_ := "poses.stp" |} _ _ Hfile).
    vm_compute. reflexivity. }
  split; [exact Hfile|]. split; [exact Hread|]. split; [reflexivity|].
  apply (C5_block_token_positions {| filepath_ := "poses.stp" |}
           {[ "poses.stp" := one_record ]} one_record
           [example_pose 500000 "7"] 0 0 Hfile Hread).
  reflexivity.
Defined.

(** [read] on the file with one complete record. *)
Lemma one_record_read :
  (read (F:=dec6) {| filepath_ := "poses.stp" |} {[ "poses.stp" := one_record ]}).1
  = Return [example_pose 500000 "7"].
Proof.
  rewrite (read_found {| filepath_ := "poses.stp" |} _ one_record)
    by apply lookup_singleton_eq.
  vm_compute. reflexivity.
Qed.

(** [read] on the file with two complete records. *)
Lemma two_records_read :
  (read (F:=dec6) {| filepath_ := "poses.stp" |} {[ "poses.stp" := two_records ]}).1
  = Return [example_pose 250000 "low"; example_pose 750000 "high"].
Proof.
  rewrite (read_found {| filepath_ := "poses.stp" |} _ two_records)
    by apply lookup_singleton_eq.
  vm_compute. reflexivity.
Qed.

(** C6 in the decimal model.  [read] on a file with two records, the less
    probable one first: the rows that start a record are rows 0 and 6, and the
    records come back in that order.  [write] with threshold 0.5 on three
    records with probabilities 0.75, 0.25 and 0.5: the first and the third are
    kept, in that order. *)
Lemma C6_witness :
  ({[ "poses.stp" := two_records ]} : FS) !! "poses.stp" = Some two_records /\
  (read (F:=dec6) {| filepath_ := "poses.stp" |} {[ "poses.stp" := two_records ]}).1
  = Return [example_pose 250000 "low"; example_pose 750000 "high"] /\
  p_lines (map split (readlines two_records)) = [0; 6] /\
  (StronglySorted lt (p_lines (map split (readlines two_records))) /\
   Forall2 (record_at (map split (readlines two_records)))
     (p_lines (map split (readlines two_records)))
     [example_pose 250000 "low"; example_pose 750000 "high"]) /\
  List.filter (λ pose, ge_min_prob (sp.p pose) (Float (Dec6 500000)))
    [example_pose 750000 "a"; example_pose 250000 "b"; example_pose 500000 "c"]
  = [example_pose 750000 "a"; example_pose 500000 "c"] /\
  exists kept,
    kept = List.filter (λ pose, ge_min_prob (sp.p pose) (Float (Dec6 500000)))
             [example_pose 750000 "a"; example_pose 250000 "b"; example_pose 500000 "c"] /\
    sublist kept
      [example_pose 750000 "a"; example_pose 250000 "b"; example_pose 500000 "c"] /\
    (write {| filepath_ := "poses.stp" |}
       [example_pose 750000 "a"; example_pose 250000 "b"; example_pose 500000 "c"]
       (Float (Dec6 500000)) ∅).2 !! write_path {| filepath_ := "poses.stp" |}
    = Some (banner (length kept) (str_number (Float (Dec6 500000)))
            +:+ str_concat (map six_lines kept) +:+ nl +:+ nl) /\
    forall (k : nat) (pose : sp.StablePose dec6),
      kept !! k = Some pose ->
      (write {| filepath_ := "poses.stp" |}
         [example_pose 750000 "a"; example_pose 250000 "b"; example_pose 500000 "c"]
         (Float (Dec6 500000)) ∅).2 !! write_path {| filepath_ := "poses.stp" |}
      = Some ((banner (length kept) (str_number (Float (Dec6 500000)))
               +:+ str_concat (map six_lines (take k kept)))
              +:+ six_lines pose
              +:+ (str_concat (map six_lines (drop (S k) kept)) +:+ nl +:+ nl)).
Proof.
  assert (({[ "poses.stp" := two_records ]} : FS) !! "poses.stp" = Some two_records)
    as Hfile by apply lookup_singleton_eq.
  split; [exact Hfile|]. split; [exact two_records_read|].
  split; [reflexivity|]. split.
  - apply (proj1 (C6_records_keep_their_order (F:=dec6))
             {| filepath_ := "poses.stp" |} _ two_records _ Hfile two_records_read).
  - split; [reflexivity|].
    apply (proj2 (C6_records_keep_their_order (F:=dec6))
             {| filepath_ := "poses.stp" |}
             [example_pose 750000 "a"; example_pose 250000 "b"; example_pose 500000 "c"]
             (Float (Dec6 500000)) ∅).
Defined.

(** C9, the part on the length, on the file with one complete record. *)
Lemma C9_witness :
  ({[ "poses.stp" := one_record ]} : FS) !! "poses.stp" = Some one_record /\
  (read (F:=dec6) {| filepath_ := "poses.stp" |} {[ "poses.stp" := one_record ]}).1
  = Return [example_pose 500000 "7"] /\
  length [example_pose 500000 "7"]
  = length (List.filter is_p_line (map split (readlines one_record))).
Proof.
  assert (({[ "poses.stp" := one_record ]} : FS) !! "poses.stp" = Some one_record)
    as Hfile by apply lookup_singleton_eq.
  split; [exact Hfile|]. split; [exact one_record_read|].
  apply (proj1 (C9_read_length_counts_p_rows (F:=dec6))
           {| filepath_ := "poses.stp" |} _ one_record _ Hfile one_record_read).
Defined.

(** ** C7: a broken block stops [read] *)

Section BrokenBlock.
Context {F : Type} `{PyFloat F}.

Lemma vec_at_float_None (data : list (list string)) (i j : nat) :
  float_at (F:=F) data i j = None \/ float_at (F:=F) data i (j + 1) = None \/
  float_at (F:=F) data i (j + 2) = None ->
  vec_at (F:=F) data i j = None.
Proof.
  unfold vec_at. intros Hnone.
  destruct (float_at data i j); simpl; [|done].
  destruct (float_at data i (j + 1)); simpl; [|done].
  destruct (float_at data i (j + 2)); simpl; [|done].
  by destruct Hnone as [?|[?|?]].
Qed.

(** A block with one of its thirteen number tokens absent or not a number
    has no fields. *)
Lemma block_fields_required (data : list (list string)) (i l j : nat) :
  In (l, j) required_tokens ->
  float_at (F:=F) data (i + l) j = None ->
  block_fields (F:=F) data i = None.
Proof.
  intros Hin Hnone. apply block_fields_None.
  unfold required_tokens in Hin. simpl in Hin.
  repeat (destruct Hin as [[= <- <-]|Hin];
          [first
             [ left; by rewrite Nat.add_0_r in Hnone
             | right; left; apply vec_at_float_None; simpl; tauto
             | right; right; left; apply vec_at_float_None; simpl; tauto
             | right; right; right; left; apply vec_at_float_None; simpl; tauto
             | right; right; right; right; apply vec_at_float_None; simpl; tauto ]
          |]).
  done.
Qed.

(** C7, amended. If a row [i] starts with ["p"] and one of the thirteen
    number tokens of its block (token 1 of row [i], tokens 1..3 of row [i+1],
    tokens 0..2 of rows [i+2] and [i+3], tokens 1..3 of row [i+4]) is absent or
    not a number, [read] raises and returns no record.  The exception is an
    [IndexError] or a [ValueError] (the spec's MalformedRecord), unless an
    earlier record without identifier token has stopped the loop first. *)
Theorem C7_broken_block_raises (self : StablePoseFile) (fs : FS) (text : string)
    (i l j : nat) (row : list string) :
  fs !! filepath_ self = Some text ->
  map split (readlines text) !! i = Some row ->
  is_p_line row = true ->
  In (l, j) required_tokens ->
  float_at (F:=F) (map split (readlines text)) (i + l) j = None ->
  exists e,
    read (F:=F) self fs = (Raise e, fs) /\
    (MalformedRecord e \/
     e = UnboundLocalError "identifier" /\
     exists k rowk,
       k < i /\ map split (readlines text) !! k = Some rowk /\
       is_p_line rowk = true /\
       token_at (map split (readlines text)) (k + 5) 1 = None).
Proof.
  intros Hfile Hrow Hp Hin Hnone.
  pose proof (block_fields_required _ i l j Hin Hnone) as Hbroken.
  destruct (read_suffix_broken (map split (readlines text)) _ 0 i row
              {| stable_poses := []; identifier := None; stp_id := None |}
              (drop_0 _) (Nat.le_0_l i) Hrow Hp Hbroken) as (e & Hraise & Hkind).
  exists e. split; [|exact Hkind].
  rewrite (read_found _ _ _ Hfile). unfold read_text.
  by rewrite read_data_suffix, Hraise.
Qed.

End BrokenBlock.

(** C7, amended, on a file that ends one row after the record marker: the
    first number of rotation row 1 is missing. *)
Lemma C7_witness :
  ({[ "poses.stp" := truncated_record ]} : FS) !! "poses.stp" = Some truncated_record /\
  map split (readlines truncated_record) !! 0 = Some ["p"; "0.5"] /\
  In (2, 0) required_tokens /\
  float_at (F:=dec6) (map split (readlines truncated_record)) (0 + 2) 0 = None /\
  exists e,
    read (F:=dec6) {| filepath_ := "poses.stp" |} {[ "poses.stp" := truncated_record ]}
    = (Raise e, {[ "poses.stp" := truncated_record ]}).
Proof.
  assert (({[ "poses.stp" := truncated_record ]} : FS) !! "poses.stp"
          = Some truncated_record) as Hfile by apply lookup_singleton_eq.
  assert (In (2, 0) required_tokens) as Hin by (simpl; tauto).
  split; [exact Hfile|]. split; [reflexivity|]. split; [exact Hin|].
  split; [reflexivity|].
  destruct (C7_broken_block_raises (F:=dec6) {| filepath_ := "poses.stp" |}
              {[ "poses.stp" := truncated_record ]} truncated_record
              0 2 0 ["p"; "0.5"] Hfile eq_refl eq_refl Hin eq_refl)
    as (e & Hraise & _).
  by exists e.
Defined.

(** C7 as stated fails: in [second_record_without_id] the row 6 starts with
    ["p"] and only four rows follow it (there is no row 11), and [read]
    returns two records. *)
Lemma C7_counterexample :
  map split (readlines second_record_without_id) !! 6 = Some ["p"; "0.25"] /\
  map split (readlines second_record_without_id) !! 11 = None /\
  read (F:=dec6) {| filepath_ := "poses.stp" |}
    {[ "poses.stp" := second_record_without_id ]}
  = (Return [example_pose 500000 "7"; example_pose 250000 "7"],
     {[ "poses.stp" := second_record_without_id ]}).
Proof.
  split; [reflexivity|]. split; [reflexivity|].
  rewrite (read_found {| filepath_ := "poses.stp" |} _ second_record_without_id)
    by apply lookup_singleton_eq.
  assert (read_text (F:=dec6) second_record_without_id
          = Return [example_pose 500000 "7"; example_pose 250000 "7"]) as ->
    by (vm_compute; reflexivity).
  reflexivity.
Qed.

(** ** C2: the identifier of a record without identifier line *)

Section MissingIdentifier.
Context {F : Type} `{PyFloat F}.

(** In an iteration whose block has its numbers but no identifier token, the
    handler stores [0] in [stp_id] and the record gets whatever [identifier]
    holds from an earlier record; with nothing bound, the iteration raises. *)
Lemma read_body_without_identifier (data : list (list string)) (i : nat)
    (row : list string) (st : read_locals (F:=F)) (p : F) (r : mat3 F) (x0 : vec3 F) :
  data !! i = Some row -> is_p_line row = true ->
  block_fields data i = Some (p, r, x0) ->
  token_at data (i + 5) 1 = None ->
  read_body data i st
  = match identifier st with
    | Some stale =>
        Return {| stable_poses := stable_poses st ++ [sp.mk p r x0 (IdStr stale)];
                  identifier := Some stale;
                  stp_id := Some 0%Z |}
    | None => Raise (UnboundLocalError "identifier")
    end.
Proof.
  intros Hrow Hp Hfields Hnone.
  pose proof (read_body_p_spec data i row st Hrow Hp) as Hbody.
  assert (identifier_after data i (identifier st) = identifier st) as Hafter
    by (unfold identifier_after; by rewrite Hnone).
  assert (stp_id (read_identifier data i st) = Some 0%Z) as Hstp.
  { unfold read_identifier. pose proof (getitem2_cases data (i + 5) 1) as Hget.
    destruct (getitem2 data (i + 5) 1); [done|].
    unfold token_at in Hnone. congruence. }
  destruct (read_body data i st) as [e|st'].
  - destruct Hbody as [[Hbroken _]|(_ & Hid & ->)]; [congruence|].
    by rewrite <- Hafter, Hid.
  - destruct Hbody as (p' & r' & x0' & ident & Hfields' & Hid & ->).
    rewrite Hafter in Hid. rewrite Hid, Hstp.
    rewrite Hfields in Hfields'. by injection Hfields' as <- <- <-.
Qed.

End MissingIdentifier.

(** C2 fails on the code.  In a file whose second record has no identifier
    line, [read] gives that record the identifier ["7"] of the first record,
    not ["0"]; and when the only record has no identifier line, [read] raises
    [UnboundLocalError] and returns nothing. *)
Theorem C2_missing_identifier_is_stale_or_unbound :
  read_text (F:=dec6) second_record_without_id
  = Return [example_pose 500000 "7"; example_pose 250000 "7"] /\
  read_text (F:=dec6) only_record_without_id = Raise (UnboundLocalError "identifier").
Proof. split; vm_compute; reflexivity. Qed.

(** ** C1: write, then read *)

Section RoundTripClaim.
Context {F : Type} `{PyFloatLaws F}.

Lemma retained_all_valid (recs : list (sp.StablePose F)) :
  Forall valid_pose recs -> retained recs (Int 0) = recs.
Proof.
  unfold retained. induction 1 as [|pose recs [Hge _] _ IH]; [done|].
  change (float_ge_int (sp.p pose) 0 = true)
    with (ge_min_prob (sp.p pose) (Int 0) = true) in Hge.
  cbn [List.filter]. by rewrite Hge, IH.
Qed.

Lemma reparse_vec_eq6 (v : vec3 F) : vec_eq6 v (reparse_vec v).
Proof.
  destruct v as [[a b] c]. unfold vec_eq6, eq6. simpl.
  by rewrite !format_reparse.
Qed.

Lemma reparse_pose_eq6 (pose : sp.StablePose F) :
  (exists s, sp.id pose = IdStr s) -> pose_eq6 pose (reparse_pose pose).
Proof.
  intros [s Hid]. unfold pose_eq6, reparse_pose.
  destruct (sp.r pose) as [[r0 r1] r2]. cbn [sp.p sp.r sp.x0 sp.id fst snd].
  split; [unfold eq6; by rewrite format_reparse|].
  repeat (split; [apply reparse_vec_eq6|]).
  by rewrite Hid.
Qed.

(** C1, amended. For every list of records whose probability is not below 0
    and whose identifier is a string that is one token, on a codec that the
    constructor accepted: [write] with [min_prob = 0] succeeds, [read] on the
    resulting file system succeeds, and the list read has the records of the
    original list in the same order, every float equal to the original at the
    precision of ["%f"] and every identifier equal. *)
Theorem C1_write_then_read_round_trip (path : string) (fs fs' : FS)
    (self : StablePoseFile) (recs : list (sp.StablePose F)) :
  init path fs = (Return self, fs') ->
  Forall valid_pose recs ->
  exists recs',
    (write self recs (Int 0) fs).1 = Return tt /\
    (read self (write self recs (Int 0) fs).2).1 = Return recs' /\
    Forall2 pose_eq6 recs recs'.
Proof.
  intros Hinit Hvalid.
  pose proof (write_path_accepted _ _ _ _ Hinit) as Hpath.
  exists (map reparse_pose recs).
  rewrite write_stores_layout, Hpath, (retained_all_valid recs Hvalid).
  cbn [fst snd]. split; [done|]. split.
  - erewrite read_found by apply lookup_insert_eq. cbn [fst].
    apply read_text_layout; [done|].
    eapply Forall_impl; [exact Hvalid|].
    intros pose (_ & s & -> & Htoken). exact Htoken.
  - apply Forall2_fmap_r, Forall_Forall2_diag.
    eapply Forall_impl; [exact Hvalid|].
    intros pose (_ & s & Hid & _). apply reparse_pose_eq6. by exists s.
Qed.

End RoundTripClaim.

(** In the decimal model ["%f"] loses nothing, and the round trip returns
    the very list that was written. *)
Lemma dec6_reparse (x : dec6) : reparse x = x.
Proof. unfold reparse. cbn [format_f float_of_string dec6_float]. by rewrite dec6_of_format. Qed.

(** C1, amended, on two records in the decimal model. *)
Lemma C1_witness :
  init "poses.stp" ∅ = (Return {| filepath_ := "poses.stp" |}, ∅) /\
  Forall valid_pose [example_pose 250000 "low"; example_pose 750000 "high"] /\
  exists recs',
    (write {| filepath_ := "poses.stp" |}
       [example_pose 250000 "low"; example_pose 750000 "high"] (Int 0) ∅).1
    = Return tt /\
    (read {| filepath_ := "poses.stp" |}
       (write {| filepath_ := "poses.stp" |}
          [example_pose 250000 "low"; example_pose 750000 "high"] (Int 0) ∅).2).1
    = Return recs' /\
    Forall2 pose_eq6 [example_pose 250000 "low"; example_pose 750000 "high"] recs'.
Proof.
  assert (Forall valid_pose [example_pose 250000 "low"; example_pose 750000 "high"])
    as Hvalid.
  { repeat constructor; simpl; eexists; split; reflexivity. }
  split; [reflexivity|]. split; [exact Hvalid|].
  apply (C1_write_then_read_round_trip (F:=dec6) "poses.stp" ∅ ∅
           {| filepath_ := "poses.stp" |} _ eq_refl Hvalid).
Defined.

(** C1 as stated fails on identifiers that are not a string of one token.
    On an accepted codec, with threshold 0 and records that pass it:
    a record with the integer identifier [7] is read back with the string
    ["7"]; a record with the identifier ["b c"] is read back with ["b"]; in
    both cases [read] returns a list that is not equal to the one written.
    And after writing a list whose first record has the empty identifier,
    [read] raises [UnboundLocalError] and returns no list at all. *)
Lemma C1_counterexample :
  init "poses.stp" ∅ = (Return {| filepath_ := "poses.stp" |}, ∅) /\
  map (λ pose, ge_min_prob (sp.p pose) (Int 0))
    [numbered_pose 500000 7; example_pose 500000 "b c";
     example_pose 500000 EmptyString; example_pose 250000 "7"]
  = [true; true; true; true] /\
  ((read {| filepath_ := "poses.stp" |}
      (write {| filepath_ := "poses.stp" |} [numbered_pose 500000 7] (Int 0) ∅).2).1
   = Return [example_pose 500000 "7"] /\
   ~ Forall2 pose_eq6 [numbered_pose 500000 7] [example_pose 500000 "7"]) /\
  ((read {| filepath_ := "poses.stp" |}
      (write {| filepath_ := "poses.stp" |} [example_pose 500000 "b c"] (Int 0) ∅).2).1
   = Return [example_pose 500000 "b"] /\
   ~ Forall2 pose_eq6 [example_pose 500000 "b c"] [example_pose 500000 "b"]) /\
  (read {| filepath_ := "poses.stp" |}
     (write {| filepath_ := "poses.stp" |}
        [example_pose 500000 EmptyString; example_pose 250000 "7"] (Int 0) ∅).2).1
  = Raise (UnboundLocalError "identifier").
Proof.
  assert (forall recs : list (sp.StablePose dec6),
            (read {| filepath_ := "poses.stp" |}
               (write {| filepath_ := "poses.stp" |} recs (Int 0) ∅).2).1
            = read_text (stp_layout (retained recs (Int 0)) (str_number (F:=dec6) (Int 0))))
    as Hread.
  { intros recs. rewrite write_stores_layout. cbn [snd].
    by erewrite read_found by apply lookup_insert_eq. }
  split; [reflexivity|]. split; [reflexivity|]. rewrite !Hread.
  split; [|split].
  - split; [vm_compute; reflexivity|].
    intros Hall. apply Forall2_cons_1 in Hall as [(_ & _ & _ & _ & _ & Hid) _].
    discriminate Hid.
  - split; [vm_compute; reflexivity|].
    intros Hall. apply Forall2_cons_1 in Hall as [(_ & _ & _ & _ & _ & Hid) _].
    discriminate Hid.
  - vm_compute. reflexivity.
Qed.

(** * Further properties of the code *)

(** ** The outcome of [read] *)

Section ReadOutcome.
Context {F : Type} `{PyFloat F}.

Lemma read_suffix_identifiers (data rows : list (list string)) (i : nat)
    (st st' : read_locals (F:=F)) :
  drop i data = rows ->
  read_suffix rows st = Return st' ->
  exists new,
    stable_poses st' = stable_poses st ++ new /\
    Forall2 (λ o rec, exists s, o = Some s /\ sp.id rec = IdStr s)
      (identifier_chain data (identifier st) (p_lines_from i rows)) new.
Proof.
  revert i st. induction rows as [|row rest IH]; intros i st Hdrop Hread.
  - injection Hread as <-. exists []. by rewrite app_nil_r.
  - destruct (drop_cons_inv _ _ _ _ Hdrop) as [Hrow Hrest].
    simpl in Hread. rewrite <- Hdrop, read_body_drop in Hread. simpl.
    destruct (is_p_line row) eqn:Hp.
    + pose proof (read_body_p_spec data i row st Hrow Hp) as Hbody.
      destruct (read_body data i st) as [e|st1]; [discriminate Hread|].
      destruct Hbody as (p & r & x0 & ident & Hfields & Hid & ->).
      destruct (IH (S i) _ Hrest Hread) as (new & Hnew & Hall).
      exists (sp.mk p r x0 (IdStr ident) :: new). split.
      * rewrite Hnew. simpl. by rewrite <- app_assoc.
      * simpl. rewrite Hid. constructor; [by exists ident|done].
    + rewrite (read_body_not_p data i row st Hrow Hp) in Hread.
      apply (IH (S i) _ Hrest Hread).
Qed.

(** X5. When [read] returns, every identifier in its list is a string: for
    the record of the [k]-th row [i] that starts with ["p"] it is token 1 of
    row [i + 5] when that token exists, whatever the row is, and otherwise
    the identifier of the record before. *)
Theorem read_identifiers_follow_the_chain (self : StablePoseFile) (fs : FS)
    (text : string) (recs : list (sp.StablePose F)) :
  fs !! filepath_ self = Some text ->
  (read self fs).1 = Return recs ->
  Forall2 (λ o rec, exists s, o = Some s /\ sp.id rec = IdStr s)
    (identifier_chain (map split (readlines text)) None
       (p_lines (map split (readlines text)))) recs.
Proof.
  intros Hfile Hread. rewrite (read_found _ _ _ Hfile) in Hread.
  cbn [fst] in Hread. unfold read_text in Hread.
  rewrite read_data_suffix in Hread.
  destruct (read_suffix _ _) as [e|st'] eqn:Hsuffix; [discriminate Hread|].
  injection Hread as <-.
  destruct (read_suffix_identifiers _ _ 0 _ _ (drop_0 _) Hsuffix)
    as (new & -> & Hall).
  exact Hall.
Qed.

Lemma read_suffix_returns (data rows : list (list string)) (i : nat)
    (st : read_locals (F:=F)) :
  drop i data = rows ->
  Forall (λ k, is_Some (block_fields (F:=F) data k)) (p_lines_from i rows) ->
  (is_Some (identifier st) \/
   match p_lines_from i rows with
   | [] => True
   | k :: _ => is_Some (token_at data (k + 5) 1)
   end) ->
  exists st', read_suffix rows st = Return st'.
Proof.
  revert i st. induction rows as [|row rest IH]; intros i st Hdrop Hfields Hid.
  - by exists st.
  - destruct (drop_cons_inv _ _ _ _ Hdrop) as [Hrow Hrest].
    simpl. rewrite <- Hdrop, read_body_drop. simpl in Hfields, Hid.
    destruct (is_p_line row) eqn:Hp.
    + apply Forall_cons in Hfields as [Hblock Hfields].
      pose proof (read_body_p_spec data i row st Hrow Hp) as Hbody.
      destruct (read_body data i st) as [e|st1]; cbn [bind].
      * exfalso. destruct Hbody as [[Hnone _]|(_ & Hafter & _)].
        -- rewrite Hnone in Hblock. by destruct Hblock.
        -- unfold identifier_after in Hafter.
           destruct (token_at data (i + 5) 1); [done|].
           destruct Hid as [Hsome|Hsome]; [rewrite Hafter in Hsome|];
             by destruct Hsome.
      * destruct Hbody as (p & r & x0 & ident & _ & _ & ->).
        apply (IH (S i)); [done|done|]. left. by eexists.
    + rewrite (read_body_not_p data i row st Hrow Hp). cbn [bind Return].
      by apply (IH (S i)).
Qed.

(** X4. On an existing file, [read] returns a list exactly when every row
    that starts with ["p"] has the thirteen numbers of its block and the
    first such row has an identifier token at row [i + 5]; later records may
    lack theirs. *)
Theorem read_returns_iff_readable (self : StablePoseFile) (fs : FS) (text : string) :
  fs !! filepath_ self = Some text ->
  ((exists recs, (read (F:=F) self fs).1 = Return recs) <->
   readable (F:=F) (map split (readlines text))).
Proof.
  intros Hfile. split.
  - intros [recs Hread].
    pose proof (read_returns_blocks _ _ _ _ Hfile Hread) as Hblocks.
    pose proof (read_identifiers_follow_the_chain _ _ _ _ Hfile Hread) as Hids.
    split.
    + apply Forall_forall. intros i Hi.
      apply list_elem_of_lookup in Hi as [k Hk].
      destruct (Forall2_lookup_l _ _ _ _ _ Hblocks Hk) as (rec & _ & Hrec).
      unfold record_at in Hrec. by rewrite Hrec.
    + destruct (p_lines _) as [|i rest]; [done|].
      simpl in Hids. inversion Hids as [|o rec os recs' (s & Ho & _) _]; subst.
      unfold identifier_after in Ho.
      by destruct (token_at _ (i + 5) 1).
  - intros [Hfields Hid].
    destruct (read_suffix_returns (map split (readlines text)) _ 0
                {| stable_poses := []; identifier := None; stp_id := None |}
                (drop_0 _) Hfields (or_intror Hid)) as (st' & Hsuffix).
    exists (stable_poses st').
    rewrite (read_found _ _ _ Hfile). cbn [fst]. unfold read_text.
    by rewrite read_data_suffix, Hsuffix.
Qed.

Lemma read_suffix_raise_cause (data rows : list (list string)) (i : nat)
    (st : read_locals (F:=F)) (e : exn) :
  drop i data = rows ->
  read_suffix rows st = Raise e ->
  (MalformedRecord e /\
   exists k, k ∈ p_lines_from i rows /\ block_fields (F:=F) data k = None) \/
  (e = UnboundLocalError "identifier" /\ identifier st = None /\
   exists k rest,
     p_lines_from i rows = k :: rest /\ is_Some (block_fields (F:=F) data k) /\
     token_at data (k + 5) 1 = None).
Proof.
  revert i st. induction rows as [|row rest IH]; intros i st Hdrop Hread;
    [discriminate Hread|].
  destruct (drop_cons_inv _ _ _ _ Hdrop) as [Hrow Hrest].
  simpl in Hread. rewrite <- Hdrop, read_body_drop in Hread. simpl.
  destruct (is_p_line row) eqn:Hp.
  - pose proof (read_body_p_spec data i row st Hrow Hp) as Hbody.
    destruct (read_body data i st) as [e'|st1]; cbn [bind] in Hread.
    + injection Hread as ->.
      destruct Hbody as [[Hnone Hmal]|(Hsome & Hafter & ->)].
      * left. split; [done|]. exists i. split; [apply list_elem_of_here|done].
      * right. unfold identifier_after in Hafter.
        destruct (token_at data (i + 5) 1) eqn:Htoken; [done|].
        split; [done|]. split; [done|]. by exists i, (p_lines_from (S i) rest).
    + destruct Hbody as (p & r & x0 & ident & _ & _ & ->).
      destruct (IH (S i) _ Hrest Hread) as [(Hmal & k & Hk & Hnone)|(_ & Hunbound & _)].
      * left. split; [done|]. exists k. split; [by apply list_elem_of_further|done].
      * discriminate Hunbound.
  - rewrite (read_body_not_p data i row st Hrow Hp) in Hread.
    apply (IH (S i) _ Hrest Hread).
Qed.

(** X6. Whenever [read] raises, it is for one of three causes: the file is
    missing ([IOError]); some row that starts with ["p"] lacks one of the
    thirteen numbers of its block ([IndexError] or [ValueError]); or the
    first such row has its numbers but no identifier token at row [i + 5]
    ([UnboundLocalError]).  In every case the file system is unchanged. *)
Theorem read_raises_for_three_causes (self : StablePoseFile) (fs fs' : FS) (e : exn) :
  read (F:=F) self fs = (Raise e, fs') ->
  fs' = fs /\
  ((fs !! filepath_ self = None /\ e = IOError (filepath_ self)) \/
   exists text,
     fs !! filepath_ self = Some text /\
     ((MalformedRecord e /\
       exists i, i ∈ p_lines (map split (readlines text)) /\
                 block_fields (F:=F) (map split (readlines text)) i = None) \/
      (e = UnboundLocalError "identifier" /\
       exists i rest,
         p_lines (map split (readlines text)) = i :: rest /\
         is_Some (block_fields (F:=F) (map split (readlines text)) i) /\
         token_at (map split (readlines text)) (i + 5) 1 = None))).
Proof.
  unfold read. destruct (fs !! filepath_ self) as [text|] eqn:Hfile.
  - intros [= Hread <-]. split; [done|]. right. exists text. split; [done|].
    unfold read_text in Hread. rewrite read_data_suffix in Hread.
    destruct (read_suffix _ _) as [e'|st'] eqn:Hsuffix; [|discriminate Hread].
    injection Hread as ->.
    destruct (read_suffix_raise_cause _ _ 0 _ _ (drop_0 _) Hsuffix)
      as [Hbroken|(Hunbound & _ & Hfirst)]; [by left|by right].
  - intros [= <- <-]. split; [done|]. by left.
Qed.

End ReadOutcome.

(** X4 on the file whose second record has no identifier line. *)
Lemma read_returns_iff_readable_witness :
  ({[ "poses.stp" := second_record_without_id ]} : FS) !! "poses.stp"
  = Some second_record_without_id /\
  ((exists recs,
      (read (F:=dec6) {| filepath_ := "poses.stp" |}
         {[ "poses.stp" := second_record_without_id ]}).1 = Return recs) <->
   readable (F:=dec6) (map split (readlines second_record_without_id))).
Proof.
  assert (({[ "poses.stp" := second_record_without_id ]} : FS) !! "poses.stp"
          = Some second_record_without_id) as Hfile by apply lookup_singleton_eq.
  split; [exact Hfile|].
  exact (read_returns_iff_readable (F:=dec6) {| filepath_ := "poses.stp" |}
           _ _ Hfile).
Defined.

(** [read] on the file whose second record has no identifier line. *)
Lemma second_record_without_id_read :
  (read (F:=dec6) {| filepath_ := "poses.stp" |}
     {[ "poses.stp" := second_record_without_id ]}).1
  = Return [example_pose 500000 "7"; example_pose 250000 "7"].
Proof.
  rewrite (read_found {| filepath_ := "poses.stp" |} _ second_record_without_id)
    by apply lookup_singleton_eq.
  vm_compute. reflexivity.
Qed.

(** X5 on the same file: both records get the identifier of the first. *)
Lemma read_identifiers_follow_the_chain_witness :
  identifier_chain (map split (readlines second_record_without_id)) None
    (p_lines (map split (readlines second_record_without_id)))
  = [Some "7"; Some "7"] /\
  Forall2 (λ o rec, exists s, o = Some s /\ sp.id rec = IdStr s)
    (identifier_chain (map split (readlines second_record_without_id)) None
       (p_lines (map split (readlines second_record_without_id))))
    [example_pose 500000 "7"; example_pose 250000 "7"].
Proof.
  split; [reflexivity|].
  apply (read_identifiers_follow_the_chain (F:=dec6) {| filepath_ := "poses.stp" |}
           {[ "poses.stp" := second_record_without_id ]} second_record_without_id).
  - apply lookup_singleton_eq.
  - exact second_record_without_id_read.
Defined.

(** X6 on a file whose probability is no number. *)
Lemma read_raises_for_three_causes_witness :
  read (F:=dec6) {| filepath_ := "poses.stp" |} {[ "poses.stp" := bad_probability ]}
  = (Raise (ValueError "could not convert string to float: half"),
     {[ "poses.stp" := bad_probability ]}) /\
  exists i,
    i ∈ p_lines (map split (readlines bad_probability)) /\
    block_fields (F:=dec6) (map split (readlines bad_probability)) i = None.
Proof.
  assert (read (F:=dec6) {| filepath_ := "poses.stp" |}
            {[ "poses.stp" := bad_probability ]}
          = (Raise (ValueError "could not convert string to float: half"),
             {[ "poses.stp" := bad_probability ]})) as Hread.
  { rewrite (read_found {| filepath_ := "poses.stp" |} _ bad_probability)
      by apply lookup_singleton_eq.
    assert (read_text (F:=dec6) bad_probability
            = Raise (ValueError "could not convert string to float: half")) as ->
      by (vm_compute; reflexivity).
    reflexivity. }
  split; [exact Hread|].
  destruct (read_raises_for_three_causes (F:=dec6) _ _ _ _ Hread)
    as (_ & [[Hmissing _]|(text & Hfile & Hcause)]).
  - rewrite lookup_singleton_eq in Hmissing. discriminate Hmissing.
  - rewrite lookup_singleton_eq in Hfile. injection Hfile as <-.
    destruct Hcause as [(_ & Hbroken)|(Hunbound & _)]; [exact Hbroken|].
    discriminate Hunbound.
Defined.

(** ** Rows that [read] passes over *)

Section LeadingRows.
Context {F : Type} `{PyFloat F}.

Lemma rows_unlines (ls : list string) (text : string) :
  Forall (λ l, line_ok l = true) ls ->
  map split (readlines (unlines ls +:+ text))
  = map (λ l, split (l +:+ nl)) ls ++ map split (readlines text).
Proof.
  induction 1 as [|l ls Hl _ IH]; [done|].
  unfold unlines. cbn [map str_concat foldr]. fold (str_concat (map (λ l, l +:+ nl) ls)).
  fold (unlines ls). rewrite !str_app_assoc, (readlines_line l _ Hl).
  cbn [map app]. by rewrite IH.
Qed.

(** X7. Lines in front of a file, none of which has ["p"] as its first
    token, change nothing in what [read] returns or raises: a banner is
    passed over whatever it says, and the count it announces is never
    compared with the records. *)
Theorem read_passes_over_leading_lines (self : StablePoseFile) (fs fs' : FS)
    (ls : list string) (text : string) :
  Forall (λ l, line_ok l = true /\ is_p_line (split (l +:+ nl)) = false) ls ->
  fs !! filepath_ self = Some (unlines ls +:+ text) ->
  fs' !! filepath_ self = Some text ->
  (read (F:=F) self fs).1 = (read (F:=F) self fs').1.
Proof.
  intros Hls Hfile Hfile'.
  rewrite (read_found _ _ _ Hfile), (read_found _ _ _ Hfile'). cbn [fst].
  unfold read_text. rewrite rows_unlines.
  - rewrite !read_data_suffix, read_suffix_skip; [done|].
    apply Forall_fmap. eapply Forall_impl; [exact Hls|]. by intros l [_ Hp].
  - eapply Forall_impl; [exact Hls|]. by intros l [Hl _].
Qed.

End LeadingRows.

(** X7 with a banner that announces 99 poses in front of one record. *)
Lemma read_passes_over_leading_lines_witness :
  Forall (λ l, line_ok l = true /\ is_p_line (split (l +:+ nl)) = false)
    ["# Num Poses: 99"; "# written by hand"] /\
  (read (F:=dec6) {| filepath_ := "poses.stp" |}
     {[ "poses.stp" := unlines ["# Num Poses: 99"; "# written by hand"] +:+ one_record ]}).1
  = (read (F:=dec6) {| filepath_ := "poses.stp" |} {[ "poses.stp" := one_record ]}).1.
Proof.
  assert (Forall (λ l, line_ok l = true /\ is_p_line (split (l +:+ nl)) = false)
            ["# Num Poses: 99"; "# written by hand"]) as Hls
    by (repeat constructor).
  split; [exact Hls|].
  apply (read_passes_over_leading_lines (F:=dec6) {| filepath_ := "poses.stp" |}
           _ _ _ one_record Hls); apply lookup_singleton_eq.
Defined.

(** ** The rows of a written file *)

Lemma spaces_length (n : nat) : String.length (spaces n) = n.
Proof. induction n as [|n IH]; [done|]. simpl. by rewrite IH. Qed.

Lemma readlines_banner (n : nat) (P rest : string) :
  line_ok P = true ->
  readlines (banner n P +:+ rest)
  = [border_line; attribution_line; blank_comment_line; num_poses_line n;
     min_prob_line P; blank_comment_line; border_line; nl] ++ readlines rest.
Proof.
  intros HP.
  unfold banner, border_line, attribution_line, blank_comment_line,
    num_poses_line, min_prob_line.
  rewrite !str_app_assoc.
  rewrite !(readlines_line "#############################################################")
    by done.
  rewrite !(readlines_line "# STP file generated by UC Berkeley Automation Sciences Lab #")
    by done.
  rewrite !(readlines_line "#                                                           #")
    by done.
  rewrite (readlines_line4 "# Num Poses: " (str_of_nat n))
    by first [reflexivity | apply str_of_nat_line_ok | apply spaces_line_ok].
  rewrite (readlines_line4 "# Min Probability: " P)
    by first [reflexivity | assumption | apply spaces_line_ok].
  rewrite !(readlines_line "#                                                           #")
    by done.
  rewrite !(readlines_line "#############################################################")
    by done.
  rewrite (readlines_line EmptyString rest eq_refl : readlines (nl +:+ rest) = _).
  cbn [app]. by rewrite !str_app_assoc.
Qed.

Section WrittenFile.
Context {F : Type} `{PyFloatLaws F}.

Lemma p_lines_from_skip (pre rest : list (list string)) (i : nat) :
  Forall (λ row, is_p_line row = false) pre ->
  p_lines_from i (pre ++ rest) = p_lines_from (i + length pre) rest.
Proof.
  intros Hpre. revert i. induction Hpre as [|row pre Hrow _ IH]; intros i.
  - by rewrite Nat.add_0_r.
  - cbn [app p_lines_from length]. rewrite Hrow, IH. f_equal. lia.
Qed.

Lemma p_lines_from_record (pose : sp.StablePose F) (rest : list (list string))
    (i : nat) :
  p_lines_from i (record_rows pose ++ rest) = i :: p_lines_from (i + 6) rest.
Proof.
  unfold record_rows.
  destruct (sp.r pose) as [[[[a b] c] [[d e] f]] [[g h] k]].
  destruct (sp.x0 pose) as [[u v] w].
  cbn [app p_lines_from is_p_line String.eqb Ascii.eqb Bool.eqb].
  rewrite !format_f_not_p. do 2 f_equal. lia.
Qed.

Lemma p_lines_from_records (kept : list (sp.StablePose F)) (tail : list (list string))
    (i : nat) :
  Forall (λ row, is_p_line row = false) tail ->
  p_lines_from i (flat_map record_rows kept ++ tail)
  = map (λ k, i + 6 * k) (seq 0 (length kept)).
Proof.
  intros Htail. revert i. induction kept as [|pose kept IH]; intros i.
  - cbn [flat_map app length seq map].
    rewrite <- (app_nil_r tail), p_lines_from_skip by done. done.
  - cbn [flat_map length seq map]. rewrite <- app_assoc, p_lines_from_record, IH.
    rewrite Nat.mul_0_r, Nat.add_0_r. f_equal.
    rewrite <- seq_shift, map_map. apply map_ext. intros k. lia.
Qed.

Lemma record_rows_length (pose : sp.StablePose F) : length (record_rows pose) = 6.
Proof.
  unfold record_rows.
  destruct (sp.r pose) as [[[[a b] c] [[d e] f]] [[g h] k]].
  by destruct (sp.x0 pose) as [[u v] w].
Qed.

Lemma flat_map_record_rows_length (kept : list (sp.StablePose F)) :
  length (flat_map record_rows kept) = 6 * length kept.
Proof.
  induction kept as [|pose kept IH]; [done|].
  cbn [flat_map length]. rewrite length_app, record_rows_length, IH. lia.
Qed.

(** The rows of a laid out text: eight of the banner, six per record, two
    empty ones. *)
Lemma rows_layout (kept : list (sp.StablePose F)) (P : string) :
  line_ok P = true ->
  Forall (λ pose, is_token (format_s (sp.id pose)) = true) kept ->
  exists hdr,
    length hdr = 8 /\ Forall (λ row, is_p_line row = false) hdr /\
    map split (readlines (stp_layout kept P))
    = hdr ++ flat_map record_rows kept ++ [[]; []].
Proof.
  intros HP Hids. unfold stp_layout.
  destruct (rows_banner (length kept) P
              (str_concat (map record_text kept) +:+ nl +:+ nl) HP)
    as (hdr & -> & Hlen & Hhdr).
  exists hdr. split; [done|]. split; [done|]. f_equal.
  induction Hids as [|pose kept Hid _ IH]; [done|].
  cbn [map str_concat foldr flat_map]. rewrite str_app_assoc.
  rewrite (rows_record_text format_f_is_token) by done.
  fold (str_concat (map record_text kept)). by rewrite IH, app_assoc.
Qed.

(** X3. In the file that [write] leaves, provided the threshold prints
    without newline and the identifiers of the retained records print as one
    token each: there are [10 + 6 N] rows for [N] retained records, and the
    rows that start with ["p"] are exactly the rows [8], [14], ..., one every
    six rows, so that no number and no identifier is ever taken for a record
    marker. *)
Theorem written_file_has_a_record_every_six_rows (self : StablePoseFile)
    (recs : list (sp.StablePose F)) (min_prob : number F) (fs : FS) :
  line_ok (str_number min_prob) = true ->
  Forall (λ pose, is_token (format_s (sp.id pose)) = true)
    (List.filter (λ pose, ge_min_prob (sp.p pose) min_prob) recs) ->
  exists text,
    (write self recs min_prob fs).2 !! write_path self = Some text /\
    length (map split (readlines text))
    = 10 + 6 * length (List.filter (λ pose, ge_min_prob (sp.p pose) min_prob) recs) /\
    p_lines (map split (readlines text))
    = map (λ k, 8 + 6 * k)
        (seq 0 (length (List.filter (λ pose, ge_min_prob (sp.p pose) min_prob) recs))).
Proof.
  intros HP Hids. eexists. rewrite write_stores_layout. cbn [snd].
  split; [apply lookup_insert_eq|]. unfold retained.
  destruct (rows_layout _ _ HP Hids) as (hdr & Hlen & Hhdr & ->).
  split.
  - rewrite !length_app, Hlen, flat_map_record_rows_length. simpl. lia.
  - unfold p_lines. rewrite p_lines_from_skip, Hlen by done.
    apply p_lines_from_records. by repeat constructor.
Qed.

Lemma reparse_pose_read_back (pose : sp.StablePose F) :
  read_back pose (reparse_pose pose).
Proof.
  unfold read_back, reparse_pose.
  destruct (sp.r pose) as [[r0 r1] r2]. cbn [sp.p sp.r sp.x0 sp.id fst snd].
  split; [unfold eq6; by rewrite format_reparse|].
  repeat (split; [apply reparse_vec_eq6|]). done.
Qed.

(** X2. On an accepted codec, [write] with any threshold followed by
    [read] returns, in input order, one record for each input record whose
    probability is [>=] the threshold: floats as printed by ["%f"], and
    the identifier as the string that ["%s"] printed, so that an integer
    identifier comes back as a string.  It needs the threshold to print
    without newline and the identifiers of the retained records to print as
    one token each. *)
Theorem write_then_read_returns_the_retained (path : string) (fs fs' : FS)
    (self : StablePoseFile) (recs : list (sp.StablePose F)) (min_prob : number F) :
  init path fs = (Return self, fs') ->
  line_ok (str_number min_prob) = true ->
  Forall (λ pose, is_token (format_s (sp.id pose)) = true)
    (List.filter (λ pose, ge_min_prob (sp.p pose) min_prob) recs) ->
  exists recs',
    (read self (write self recs min_prob fs).2).1 = Return recs' /\
    Forall2 read_back
      (List.filter (λ pose, ge_min_prob (sp.p pose) min_prob) recs) recs'.
Proof.
  intros Hinit HP Hids.
  pose proof (write_path_accepted _ _ _ _ Hinit) as Hpath.
  exists (map reparse_pose (retained recs min_prob)).
  rewrite write_stores_layout, Hpath. cbn [snd]. split.
  - erewrite read_found by apply lookup_insert_eq. cbn [fst].
    by apply read_text_layout.
  - apply Forall2_fmap_r, Forall_Forall2_diag, Forall_forall.
    intros pose _. apply reparse_pose_read_back.
Qed.

End WrittenFile.

(** X3 on two records of the decimal model, threshold 0. *)
Lemma written_file_has_a_record_every_six_rows_witness :
  line_ok (str_number (F:=dec6) (Int 0)) = true /\
  Forall (λ pose, is_token (format_s (sp.id pose)) = true)
    (List.filter (λ pose, ge_min_prob (sp.p pose) (Int 0))
       [example_pose 250000 "low"; numbered_pose 750000 3]) /\
  exists text,
    (write {| filepath_ := "poses.stp" |}
       [example_pose 250000 "low"; numbered_pose 750000 3] (Int 0) ∅).2
    !! write_path {| filepath_ := "poses.stp" |} = Some text /\
    length (map split (readlines text))
    = 10 + 6 * length (List.filter (λ pose, ge_min_prob (sp.p pose) (Int 0))
                         [example_pose 250000 "low"; numbered_pose 750000 3]) /\
    p_lines (map split (readlines text))
    = map (λ k, 8 + 6 * k)
        (seq 0 (length (List.filter (λ pose, ge_min_prob (sp.p pose) (Int 0))
                          [example_pose 250000 "low"; numbered_pose 750000 3]))).
Proof.
  assert (Forall (λ pose, is_token (format_s (sp.id pose)) = true)
            (List.filter (λ pose, ge_min_prob (sp.p pose) (Int 0))
               [example_pose 250000 "low"; numbered_pose 750000 3])) as Hids
    by (repeat constructor).
  split; [reflexivity|]. split; [exact Hids|].
  exact (written_file_has_a_record_every_six_rows (F:=dec6)
           {| filepath_ := "poses.stp" |} _ (Int 0) ∅ eq_refl Hids).
Defined.

(** X2 with threshold 0.5: the record with probability 0.25 is left out and
    the integer identifier 3 comes back as a string. *)
Lemma write_then_read_returns_the_retained_witness :
  init "poses.stp" ∅ = (Return {| filepath_ := "poses.stp" |}, ∅) /\
  line_ok (str_number (Float (Dec6 500000))) = true /\
  List.filter (λ pose, ge_min_prob (sp.p pose) (Float (Dec6 500000)))
    [example_pose 250000 "low"; numbered_pose 750000 3]
  = [numbered_pose 750000 3] /\
  exists recs',
    (read {| filepath_ := "poses.stp" |}
       (write {| filepath_ := "poses.stp" |}
          [example_pose 250000 "low"; numbered_pose 750000 3]
          (Float (Dec6 500000)) ∅).2).1 = Return recs' /\
    Forall2 read_back
      (List.filter (λ pose, ge_min_prob (sp.p pose) (Float (Dec6 500000)))
         [example_pose 250000 "low"; numbered_pose 750000 3]) recs'.
Proof.
  assert (Forall (λ pose, is_token (format_s (sp.id pose)) = true)
            (List.filter (λ pose, ge_min_prob (sp.p pose) (Float (Dec6 500000)))
               [example_pose 250000 "low"; numbered_pose 750000 3])) as Hids
    by (repeat constructor).
  split; [reflexivity|]. split; [reflexivity|]. split; [reflexivity|].
  exact (write_then_read_returns_the_retained (F:=dec6) "poses.stp" ∅ ∅
           {| filepath_ := "poses.stp" |} _ (Float (Dec6 500000))
           eq_refl eq_refl Hids).
Defined.

(** ** The width of the banner *)

Section BannerWidth.
Context {F : Type} `{PyFloat F}.

(** X8. In the file that [write] leaves, the border line is 61 characters
    and a newline; the count line is as long whenever the count has at most
    46 digits, and the threshold line whenever the threshold prints in at most
    40 characters.  A longer count or threshold is not cut: the line then
    grows by the excess. *)
Theorem banner_lines_are_aligned (self : StablePoseFile)
    (recs : list (sp.StablePose F)) (min_prob : number F) (fs : FS) :
  line_ok (str_number min_prob) = true ->
  exists text l0 l3 l4,
    (write self recs min_prob fs).2 !! write_path self = Some text /\
    readlines text !! 0 = Some l0 /\
    readlines text !! 3 = Some l3 /\
    readlines text !! 4 = Some l4 /\
    String.length l0 = 62 /\
    String.length l3
    = 16 + Nat.max 46
             (String.length
                (str_of_nat
                   (length (List.filter (λ pose, ge_min_prob (sp.p pose) min_prob)
                              recs)))) /\
    String.length l4 = 22 + Nat.max 40 (String.length (str_number min_prob)).
Proof.
  intros HP. rewrite write_stores_layout. cbn [snd].
  eexists _, border_line,
    (num_poses_line (length (retained recs min_prob))),
    (min_prob_line (str_number min_prob)).
  split; [apply lookup_insert_eq|].
  unfold stp_layout. rewrite (readlines_banner _ _ _ HP).
  split; [done|]. split; [done|]. split; [done|]. split; [done|].
  unfold num_poses_line, min_prob_line, retained.
  rewrite !str_length_app, !spaces_length. simpl. split; lia.
Qed.

End BannerWidth.

(** X8 on an empty list with threshold 0: three lines of 62 characters. *)
Lemma banner_lines_are_aligned_witness :
  line_ok (str_number (F:=dec6) (Int 0)) = true /\
  exists text l0 l3 l4,
    (write (F:=dec6) {| filepath_ := "poses.stp" |} [] (Int 0) ∅).2
    !! write_path {| filepath_ := "poses.stp" |} = Some text /\
    readlines text !! 0 = Some l0 /\
    readlines text !! 3 = Some l3 /\
    readlines text !! 4 = Some l4 /\
    String.length l0 = 62 /\
    String.length l3 = 16 + Nat.max 46 (String.length (str_of_nat 0)) /\
    String.length l4 = 22 + Nat.max 40 (String.length (str_number (F:=dec6) (Int 0))).
Proof.
  split; [reflexivity|].
  exact (banner_lines_are_aligned (F:=dec6) {| filepath_ := "poses.stp" |}
           [] (Int 0) ∅ eq_refl).
Defined.

(** ** The path of a constructed codec *)

(** X9. The [filepath] of a codec that the constructor returned is the
    constructor's argument, unchanged; it is some [root] followed by [".stp"]
    where the file name in [root] is more than dots; and a second
    construction from it succeeds and gives the same codec. *)
Theorem constructed_filepath_has_stp_extension (path : string) (fs fs' : FS)
    (self : StablePoseFile) :
  init path fs = (Return self, fs') ->
  filepath self = path /\
  (exists root, filepath self = root +:+ ".stp" /\ has_stem root) /\
  forall fs0, init (filepath self) fs0 = (Return self, fs0).
Proof.
  intros Hinit.
  destruct (init_inv _ _ _ _ Hinit) as (Hext & -> & _).
  unfold filepath. cbn [filepath_].
  split; [done|]. split; [by apply splitext_stp_iff|].
  intros fs0. by apply init_accepts.
Qed.

(** X9 at the path [meshes/part.stp]. *)
Lemma constructed_filepath_has_stp_extension_witness :
  init "meshes/part.stp" ∅ = (Return {| filepath_ := "meshes/part.stp" |}, ∅) /\
  filepath {| filepath_ := "meshes/part.stp" |} = "meshes/part.stp".
Proof.
  split; [reflexivity|].
  apply (constructed_filepath_has_stp_extension "meshes/part.stp" ∅ ∅
           {| filepath_ := "meshes/part.stp" |}).
  reflexivity.
Defined.

(** ** Identifiers that are more than one word *)

Lemma split_go_newline_end (cur s : string) : split_go cur (s +:+ nl) = split_go cur s.
Proof.
  revert cur. induction s as [|c s IH]; intros cur.
  - rewrite str_app_nil_l. simpl. by destruct (String.eqb cur EmptyString).
  - rewrite str_app_cons. simpl. by rewrite !IH.
Qed.

Section IdentifierWords.
Context {F : Type} `{PyFloatLaws F}.

(** Reading back the six lines of a record whose identifier text has no
    newline: the identifier row holds its words. *)
Lemma rows_record_text_words (pose : sp.StablePose F) (rest : string) :
  line_ok (format_s (sp.id pose)) = true ->
  map split (readlines (record_text pose +:+ rest))
  = (take 5 (record_rows pose) ++ [ "id" :: split (format_s (sp.id pose)) ])
    ++ map split (readlines rest).
Proof.
  intros Hid. unfold record_text, record_rows.
  destruct (sp.r pose) as [[[[a b] c] [[d e] f]] [[g h] i]].
  destruct (sp.x0 pose) as [[u v] w].
  rewrite !str_app_assoc.
  rewrite (readlines_line2 "p ")
    by first [reflexivity | apply is_token_line_ok, format_f_is_token].
  rewrite (readlines_line2 "r ")
    by first [reflexivity | apply (format_3f_line_ok format_f_is_token)].
  rewrite (readlines_line2 "  ")
    by first [reflexivity | apply (format_3f_line_ok format_f_is_token)].
  rewrite (readlines_line2 "  ")
    by first [reflexivity | apply (format_3f_line_ok format_f_is_token)].
  rewrite (readlines_line2 "x0 ")
    by first [reflexivity | apply (format_3f_line_ok format_f_is_token)].
  rewrite (readlines_line2 "id ") by first [reflexivity | exact Hid].
  cbn [map app take].
  rewrite !(split_untagged_3f format_f_is_token).
  rewrite (split_tagged "p" _ eq_refl (format_f_is_token (sp.p pose))
           : split (("p " +:+ _) +:+ nl) = _).
  rewrite (split_tagged_3f format_f_is_token "r" a b c eq_refl
           : split (("r " +:+ _) +:+ nl) = _).
  rewrite (split_tagged_3f format_f_is_token "x0" u v w eq_refl
           : split (("x0 " +:+ _) +:+ nl) = _).
  do 6 f_equal. unfold split. rewrite split_go_newline_end.
  by rewrite (split_token_sp "id" _ eq_refl
              : split_go EmptyString ("id " +:+ _) = _).
Qed.

(** The loop over such six rows appends the record with the first word of
    the identifier text. *)
Lemma read_suffix_record_words (pose : sp.StablePose F) (t : string)
    (ws : list string) (rest : list (list string)) (st : read_locals (F:=F)) :
  read_suffix ((take 5 (record_rows pose) ++ [ "id" :: t :: ws ]) ++ rest) st
  = read_suffix rest
      {| stable_poses := stable_poses st ++ [read_back_as t pose];
         identifier := Some t;
         stp_id := stp_id st |}.
Proof.
  unfold record_rows, read_back_as.
  destruct (sp.r pose) as [[[[a b] c] [[d e] f]] [[g h] i]].
  destruct (sp.x0 pose) as [[u v] w].
  cbn [app take read_suffix].
  assert (read_body
            (["p"; format_f (sp.p pose)]
             :: ["r"; format_f a; format_f b; format_f c]
             :: [format_f d; format_f e; format_f f]
             :: [format_f g; format_f h; format_f i]
             :: ["x0"; format_f u; format_f v; format_f w]
             :: ("id" :: t :: ws) :: rest) 0 st
          = Return
              {| stable_poses :=
                   stable_poses st
                   ++ [sp.mk (reparse (sp.p pose))
                         ((reparse a, reparse b, reparse c),
                          (reparse d, reparse e, reparse f),
                          (reparse g, reparse h, reparse i))
                         (reparse u, reparse v, reparse w)
                         (IdStr t)];
                 identifier := Some t;
                 stp_id := stp_id st |}) as ->.
  { unfold read_body, read_identifier, getitem2, getitem, astype_mat, astype_vec.
    cbn [lookup list_lookup Nat.add bind Return is_p_line String.eqb Ascii.eqb
         Bool.eqb stable_poses identifier stp_id].
    rewrite !to_float_format. done. }
  cbn [bind Return].
  rewrite read_body_head_not_p by done. cbn [bind Return].
  rewrite read_body_head_not_p by apply format_f_not_p. cbn [bind Return].
  rewrite read_body_head_not_p by apply format_f_not_p. cbn [bind Return].
  rewrite read_body_head_not_p by done. cbn [bind Return].
  rewrite read_body_head_not_p by done. done.
Qed.

Lemma read_back_as_first_word (pose : sp.StablePose F) (t : string) :
  first_word (format_s (sp.id pose)) = Some t ->
  read_back_first_word pose (read_back_as t pose).
Proof.
  intros Hword. unfold read_back_first_word, read_back_as.
  destruct (sp.r pose) as [[r0 r1] r2]. cbn [sp.p sp.r sp.x0 sp.id fst snd].
  split; [unfold eq6; by rewrite format_reparse|].
  repeat (split; [apply reparse_vec_eq6|]). by exists t.
Qed.

Lemma read_suffix_layout_words (kept : list (sp.StablePose F)) (text : string)
    (tail : list (list string)) (st : read_locals (F:=F)) :
  Forall (λ pose, line_ok (format_s (sp.id pose)) = true /\
                  is_Some (first_word (format_s (sp.id pose)))) kept ->
  map split (readlines text) = tail ->
  Forall (λ row, is_p_line row = false) tail ->
  exists st',
    read_suffix (map split (readlines (str_concat (map record_text kept) +:+ text))) st
    = Return st' /\
    exists new, stable_poses st' = stable_poses st ++ new /\
                Forall2 read_back_first_word kept new.
Proof.
  intros Hids Htail Hnot_p. revert st.
  induction Hids as [|pose kept [Hline [t Hword]] _ IH]; intros st.
  - cbn [map str_concat foldr]. rewrite str_app_nil_l, Htail.
    exists st. rewrite <- (app_nil_r tail), read_suffix_skip by done.
    split; [done|]. exists []. by rewrite app_nil_r.
  - cbn [map str_concat foldr]. fold (str_concat (map record_text kept)).
    rewrite str_app_assoc, (rows_record_text_words pose _ Hline).
    unfold first_word in Hword.
    destruct (split (format_s (sp.id pose))) as [|t' ws] eqn:Hsplit;
      [discriminate Hword|].
    injection Hword as ->.
    rewrite read_suffix_record_words.
    destruct (IH {| stable_poses := stable_poses st ++ [read_back_as t pose];
                    identifier := Some t; stp_id := stp_id st |})
      as (st' & Hread & new & Hnew & Hall).
    exists st'. split; [done|]. exists (read_back_as t pose :: new). split.
    + rewrite Hnew. cbn [stable_poses]. by rewrite <- app_assoc.
    + constructor; [|done]. apply read_back_as_first_word.
      unfold first_word. by rewrite Hsplit.
Qed.

(** X10. On an accepted codec, when the identifier texts of the retained
    records have no newline and at least one word each (and the threshold
    prints without newline), [write] followed by [read] returns one record
    per retained record, in order, and each identifier comes back as the
    first word of its text: what follows the first blank is lost. *)
Theorem identifier_comes_back_as_its_first_word (path : string) (fs fs' : FS)
    (self : StablePoseFile) (recs : list (sp.StablePose F)) (min_prob : number F) :
  init path fs = (Return self, fs') ->
  line_ok (str_number min_prob) = true ->
  Forall (λ pose, line_ok (format_s (sp.id pose)) = true /\
                  is_Some (first_word (format_s (sp.id pose))))
    (List.filter (λ pose, ge_min_prob (sp.p pose) min_prob) recs) ->
  exists recs',
    (read self (write self recs min_prob fs).2).1 = Return recs' /\
    Forall2 read_back_first_word
      (List.filter (λ pose, ge_min_prob (sp.p pose) min_prob) recs) recs'.
Proof.
  intros Hinit HP Hids.
  pose proof (write_path_accepted _ _ _ _ Hinit) as Hpath.
  rewrite write_stores_layout, Hpath. cbn [snd].
  erewrite read_found by apply lookup_insert_eq. cbn [fst].
  unfold read_text, stp_layout, retained.
  destruct (rows_banner
              (length (List.filter (λ pose, ge_min_prob (sp.p pose) min_prob) recs))
              (str_number min_prob)
              (str_concat
                 (map record_text
                    (List.filter (λ pose, ge_min_prob (sp.p pose) min_prob) recs))
               +:+ nl +:+ nl) HP)
    as (hdr & -> & _ & Hhdr).
  rewrite read_data_suffix, read_suffix_skip by done.
  destruct (read_suffix_layout_words _ (nl +:+ nl) [[]; []]
              {| stable_poses := []; identifier := None; stp_id := None |}
              Hids eq_refl) as (st' & -> & new & Hnew & Hall);
    [by repeat constructor|].
  cbn [bind Return]. exists (stable_poses st'). split; [done|].
  by rewrite Hnew.
Qed.

End IdentifierWords.

(** X10 on a record whose identifier is [left bracket]: it comes back as
    [left]. *)
Lemma identifier_comes_back_as_its_first_word_witness :
  init "poses.stp" ∅ = (Return {| filepath_ := "poses.stp" |}, ∅) /\
  line_ok (str_number (F:=dec6) (Int 0)) = true /\
  first_word "left bracket" = Some "left" /\
  exists recs',
    (read {| filepath_ := "poses.stp" |}
       (write {| filepath_ := "poses.stp" |}
          [example_pose 500000 "left bracket"] (Int 0) ∅).2).1 = Return recs' /\
    Forall2 read_back_first_word
      (List.filter (λ pose, ge_min_prob (sp.p pose) (Int 0))
         [example_pose 500000 "left bracket"]) recs'.
Proof.
  assert (Forall (λ pose, line_ok (format_s (sp.id pose)) = true /\
                          is_Some (first_word (format_s (sp.id pose))))
            (List.filter (λ pose, ge_min_prob (sp.p pose) (Int 0))
               [example_pose 500000 "left bracket"])) as Hids.
  { repeat constructor. by exists "left". }
  split; [reflexivity|]. split; [reflexivity|]. split; [reflexivity|].
  exact (identifier_comes_back_as_its_first_word (F:=dec6) "poses.stp" ∅ ∅
           {| filepath_ := "poses.stp" |} _ (Int 0) eq_refl eq_refl Hids).
Defined.

(** ** A written file that cannot be read *)

Section EmptyIdentifier.
Context {F : Type} `{PyFloatLaws F}.

Lemma read_suffix_record_without_word (pose : sp.StablePose F)
    (rest : list (list string)) (st : read_locals (F:=F)) :
  identifier st = None ->
  read_suffix ((take 5 (record_rows pose) ++ [ ["id"] ]) ++ rest) st
  = Raise (UnboundLocalError "identifier").
Proof.
  intros Hunbound. unfold record_rows.
  destruct (sp.r pose) as [[[[a b] c] [[d e] f]] [[g h] i]].
  destruct (sp.x0 pose) as [[u v] w].
  cbn [app take read_suffix].
  assert (read_body
            (["p"; format_f (sp.p pose)]
             :: ["r"; format_f a; format_f b; format_f c]
             :: [format_f d; format_f e; format_f f]
             :: [format_f g; format_f h; format_f i]
             :: ["x0"; format_f u; format_f v; format_f w]
             :: ["id"] :: rest) 0 st
          = Raise (UnboundLocalError "identifier")) as ->; [|done].
  unfold read_body, read_identifier, getitem2, getitem, astype_mat, astype_vec.
  cbn [lookup list_lookup Nat.add bind Return Raise is_p_line String.eqb Ascii.eqb
       Bool.eqb stable_poses identifier stp_id].
  rewrite !to_float_format. cbn [bind Return identifier]. by rewrite Hunbound.
Qed.

(** X11. [write] can leave a file that [read] cannot read: on an accepted
    codec, when the first retained record has an identifier whose text is
    empty or blank, [write] succeeds and [read] on the result raises
    [UnboundLocalError] and returns nothing, however many good records
    follow. *)
Theorem blank_first_identifier_makes_the_file_unreadable (path : string)
    (fs fs' : FS) (self : StablePoseFile) (recs : list (sp.StablePose F))
    (min_prob : number F) (pose : sp.StablePose F) (more : list (sp.StablePose F)) :
  init path fs = (Return self, fs') ->
  line_ok (str_number min_prob) = true ->
  List.filter (λ pose, ge_min_prob (sp.p pose) min_prob) recs = pose :: more ->
  line_ok (format_s (sp.id pose)) = true ->
  first_word (format_s (sp.id pose)) = None ->
  (write self recs min_prob fs).1 = Return tt /\
  (read self (write self recs min_prob fs).2).1 = Raise (UnboundLocalError "identifier").
Proof.
  intros Hinit HP Hkept Hline Hword.
  pose proof (write_path_accepted _ _ _ _ Hinit) as Hpath.
  rewrite write_stores_layout, Hpath. cbn [fst snd]. split; [done|].
  erewrite read_found by apply lookup_insert_eq. cbn [fst].
  unfold read_text, stp_layout, retained. rewrite Hkept.
  destruct (rows_banner (length (pose :: more)) (str_number min_prob)
              (str_concat (map record_text (pose :: more)) +:+ nl +:+ nl) HP)
    as (hdr & -> & _ & Hhdr).
  rewrite read_data_suffix, read_suffix_skip by done.
  cbn [map str_concat foldr]. fold (str_concat (map record_text more)).
  rewrite str_app_assoc, (rows_record_text_words pose _ Hline).
  unfold first_word in Hword.
  destruct (split (format_s (sp.id pose))) as [|t ws]; [|discriminate Hword].
  by rewrite read_suffix_record_without_word.
Qed.

End EmptyIdentifier.

(** X11 on a record with the empty identifier followed by a good one. *)
Lemma blank_first_identifier_makes_the_file_unreadable_witness :
  init "poses.stp" ∅ = (Return {| filepath_ := "poses.stp" |}, ∅) /\
  List.filter (λ pose, ge_min_prob (sp.p pose) (Int 0))
    [example_pose 500000 EmptyString; example_pose 250000 "7"]
  = [example_pose 500000 EmptyString; example_pose 250000 "7"] /\
  first_word EmptyString = None /\
  (read {| filepath_ := "poses.stp" |}
     (write {| filepath_ := "poses.stp" |}
        [example_pose 500000 EmptyString; example_pose 250000 "7"] (Int 0) ∅).2).1
  = Raise (UnboundLocalError "identifier").
Proof.
  assert (List.filter (λ pose, ge_min_prob (sp.p pose) (Int 0))
            [example_pose 500000 EmptyString; example_pose 250000 "7"]
          = [example_pose 500000 EmptyString; example_pose 250000 "7"]) as Hkept
    by reflexivity.
  split; [reflexivity|]. split; [exact Hkept|]. split; [reflexivity|].
  apply (blank_first_identifier_makes_the_file_unreadable (F:=dec6) "poses.stp" ∅ ∅
           {| filepath_ := "poses.stp" |}
           [example_pose 500000 EmptyString; example_pose 250000 "7"] (Int 0)
           (example_pose 500000 EmptyString) [example_pose 250000 "7"]
           eq_refl eq_refl Hkept eq_refl eq_refl).
Defined.
